(** * Librarian: the generate command and the pull-request aggregator

    A shallow embedding of [internal/command/generate.go], of the
    pull-request helpers of package [command], and of the state schema
    [pipeline_state.proto].

    The Go functions talk to collaborators (the container runtime, git,
    GitHub, the file system, the logger).  A function of the package is
    embedded as a program over the signature [Call] of these collaborators;
    [run] executes a program against an arbitrary environment and returns
    what the function returned together with the chronological trace of the
    calls it made and of the answers it got. *)

From Stdlib Require Import String Ascii List Bool Arith ZArith Lia.
Import ListNotations.
Open Scope list_scope.
Open Scope string_scope.

Set Implicit Arguments.

(** ** The state schema (pipeline_state.proto) *)

Inductive AutomationLevel : Set :=
| AUTOMATION_LEVEL_NONE
| AUTOMATION_LEVEL_BLOCKED
| AUTOMATION_LEVEL_MANUAL_REVIEW
| AUTOMATION_LEVEL_AUTOMATIC.

Record Timestamp : Set := { seconds : Z; nanos : Z }.

Record LibraryState : Set := {
  id : string;
  current_version : string;
  next_version : string;
  generation_automation_level : AutomationLevel;
  release_automation_level : AutomationLevel;
  release_timestamp : option Timestamp;
  last_generated_commit : string;
  last_released_commit : string;
  api_paths : list string;
  source_paths : list string
}.

Record PipelineState : Set := {
  image_tag : string;
  libraries : list LibraryState;
  common_library_source_paths : list string;
  ignored_api_paths : list string
}.

(** ** Text *)

(** The line feed, written [\n] in the Go source. *)
Definition LF : string := String (ascii_of_nat 10) EmptyString.

(** ** What the package takes from elsewhere

    Types and pure helpers that the two source files use and that are
    declared in other packages or other files: Go's [error] interface with
    [errors.New], the opaque values handed to collaborators, and the helpers
    [formatTimestamp], [validateRequiredFlag], [findLibraryIDByApiPath] and
    the constant [pipelineStateFile] of package [command]. *)
Class Externals : Type := {
  error : Type;
  errors_New : string -> error;
  Error : error -> string;
  ContainerConfig : Type;
  time_Time : Type;
  context_Context : Type;
  GitHubRepo : Type;
  PullRequestMetadata : Type;
  AccessToken : Type;
  context_Background : context_Context;
  formatTimestamp : time_Time -> string;
  filepath_Join : list string -> string;
  pipelineStateFile : string;
  validateRequiredFlag : string -> string -> option error;
  findLibraryIDByApiPath : option PipelineState -> string -> string
}.

(** The package-level flag variables read by the two files. *)
Class Flags : Set := {
  flagAPIPath : string;
  flagAPIRoot : string;
  flagBuild : bool;
  flagRepoRoot : string;
  flagRepoUrl : string;
  flagPush : bool
}.

(** [gitrepo.Repo]: only its [Dir] field is read here. *)
Record Repo : Set := { Dir : string }.

(** The file system view built by [os.DirFS]. *)
Inductive FS : Set := os_DirFS (dir : string).

Inductive Level : Set := Info | Warn | ErrorLevel.

(** A PullRequestContent builds up the content of a pull request. *)
Record PullRequestContent : Set := {
  Successes : list string;
  Errors : list string
}.

(** How a Go call ends: it returns, or it panics. *)
Inductive Outcome (A : Type) : Type :=
| Returned (a : A)
| Panicked (msg : string).

Arguments Returned {A} a.
Arguments Panicked {A} msg.

Section Command.
Context {X : Externals}.

Record commandState : Type := {
  workRoot : string;
  languageRepo : option Repo;
  pipelineState : option PipelineState;
  containerConfig : ContainerConfig
}.

(** The fields [ctx], [startTime] and [languageRepo] of the Go struct. *)
Record CommandContext : Type := {
  ctx_ctx : context_Context;
  ctx_startTime : time_Time;
  ctx_languageRepo : option Repo
}.

(** ** Collaborator calls

    [Call R] is a call whose answer has type [R].  A Go result list
    [(T, error)] is the pair of both components, as Go returns it. *)
Inductive Call : Type -> Type :=
| slog (level : Level) (msg : string) (args : list string) : Call unit
| filepath_Abs (path : string) : Call (string * option error)
| os_Mkdir (name : string) (perm : N) : Call (option error)
| os_CopyFS (dir : string) (fsys : FS) : Call (option error)
| container_GenerateLibrary (config : ContainerConfig)
    (apiRoot outputDir generatorInput libraryID : string) : Call (option error)
| container_GenerateRaw (config : ContainerConfig)
    (apiRoot outputDir apiPath : string) : Call (option error)
| container_Clean (config : ContainerConfig) (repoDir libraryID : string)
    : Call (option error)
| container_BuildLibrary (config : ContainerConfig) (repoDir libraryID : string)
    : Call (option error)
| container_BuildRaw (config : ContainerConfig) (outputDir apiPath : string)
    : Call (option error)
| loadPipelineStateFile (path : string)
    : Call (option PipelineState * option error)
| githubrepo_ParseUrl (url : string) : Call (GitHubRepo * option error)
| fetchRemotePipelineState (c : context_Context) (repo : GitHubRepo)
    (revision : string) : Call (option PipelineState * option error)
| cloneOrOpenLanguageRepo (workRoot : string)
    : Call (option Repo * option error)
| gitrepo_GetGitHubRepoFromRemote (repo : option Repo)
    : Call (GitHubRepo * option error)
| githubrepo_GetAccessToken : Call AccessToken
| gitrepo_PushBranch (repo : option Repo) (branch : string)
    (token : AccessToken) : Call (option error)
| githubrepo_CreatePullRequest (c : context_Context) (repo : GitHubRepo)
    (branch title description : string)
    : Call (option PullRequestMetadata * option error).

(** ** Programs *)

Inductive Prog (A : Type) : Type :=
| Ret (a : A)
| Panic (msg : string)
| Do {R : Type} (c : Call R) (k : R -> Prog A).

Arguments Ret {A} a.
Arguments Panic {A} msg.
Arguments Do {A R} c k.

Fixpoint bind {A B : Type} (p : Prog A) (f : A -> Prog B) : Prog B :=
  match p with
  | Ret a => f a
  | Panic msg => Panic msg
  | Do c k => Do c (fun r => bind (k r) f)
  end.

Definition call {R : Type} (c : Call R) : Prog R := Do c Ret.

Fixpoint forEach {A : Type} (l : list A) (body : A -> Prog unit) : Prog unit :=
  match l with
  | [] => Ret tt
  | x :: rest => bind (body x) (fun _ => forEach rest body)
  end.

(** Reading a field through a pointer that may be nil. *)
Definition deref {A : Type} (p : option A) : Prog A :=
  match p with
  | Some a => Ret a
  | None => Panic "invalid memory address or nil pointer dereference"
  end.

End Command.

Arguments Ret {X A} a.
Arguments Panic {X A} msg.
Arguments Do {X A R} c k.

Declare Scope prog_scope.
Delimit Scope prog_scope with prog.
Notation "x <- p ;; q" := (bind p (fun x => q))
  (at level 100, p at next level, right associativity) : prog_scope.
Notation "' pat <- p ;; q" := (bind p (fun x => match x with pat => q end))
  (at level 100, pat pattern, p at next level, right associativity) : prog_scope.
Notation "p ;; q" := (bind p (fun _ => q))
  (at level 100, right associativity) : prog_scope.
Open Scope prog_scope.

Section Semantics.
Context {X : Externals}.

(** ** Executions *)

Inductive Event : Type :=
| Ev {R : Type} (c : Call R) (r : R).

(** The environment answers a call knowing everything that happened before. *)
Definition Oracle : Type := list Event -> forall R : Type, Call R -> R.

(** [run env p hist] executes [p] after the history [hist]; it gives the
    outcome of [p] and the events [p] added, oldest first. *)
Fixpoint run {A : Type} (env : Oracle) (p : Prog A) (hist : list Event)
  : Outcome A * list Event :=
  match p with
  | Ret a => (Returned a, [])
  | Panic msg => (Panicked msg, [])
  | Do c k =>
      let r := env hist _ c in
      let rest := run env (k r) (hist ++ [Ev c r])%list in
      (fst rest, Ev c r :: snd rest)
  end.

End Semantics.

(** ** The pull-request helpers *)

Section Source.
Context {X : Externals} {F : Flags}.

(** [fmt.Sprintf] with the verb [%s] applied to an [error] operand. *)
Definition fmt_s (err : option error) : string :=
  match err with
  | Some e => Error e
  | None => "%!s(<nil>)"
  end.

(** The loop of [formatListAsMarkdown] over its [strings.Builder]. *)
Fixpoint writeEach (builder : string) (list : list string) : string :=
  match list with
  | [] => builder
  | value :: rest => writeEach (builder ++ ("- " ++ value ++ LF)) rest
  end.

Definition formatListAsMarkdown (list : list string) : string :=
  writeEach "" list.

(** [pr] is passed by pointer and updated in place; the embedding returns
    the updated content. *)
Definition addErrorToPullRequest (pr : PullRequestContent) (id : string)
  (err : option error) (action : string) : Prog PullRequestContent :=
  call (slog Warn ("Error while " ++ action ++ " " ++ id ++ ": " ++ fmt_s err) []);;
  Ret {| Successes := Successes pr;
         Errors := app (Errors pr) ["Error while " ++ action ++ " " ++ id] |}.

Definition addSuccessToPullRequest (pr : PullRequestContent) (text : string)
  : PullRequestContent :=
  {| Successes := app (Successes pr) [text]; Errors := Errors pr |}.

Definition createPullRequest (ctx : CommandContext) (content : PullRequestContent)
  (titlePrefix descriptionSuffix branchType : string)
  : Prog (option PullRequestMetadata * option error) :=
  let anySuccesses := (0 <? List.length (Successes content))%nat in
  let anyErrors := (0 <? List.length (Errors content))%nat in
  if negb anySuccesses && negb anyErrors then
    call (slog Info "No PR to create, and no errors." []);;
    Ret (None, None)
  else if negb anySuccesses && anyErrors then
    call (slog ErrorLevel
      "No PR to create, but errors were logged (and restated below). Aborting." []);;
    forEach (Errors content) (fun line => call (slog ErrorLevel line []));;
    Ret (None, Some (errors_New "errors encountered but no PR to create"))
  else
    let description :=
      if anySuccesses && negb anyErrors then
        formatListAsMarkdown (Successes content)
      else
        let errorsText := formatListAsMarkdown (Errors content) in
        let releasesText := formatListAsMarkdown (Successes content) in
        "Errors:" ++ LF ++ "==================" ++ LF ++ errorsText ++ LF ++ LF
          ++ "Changes Included:" ++ LF ++ "==================" ++ LF ++ releasesText in
    let description :=
      if negb (descriptionSuffix =? "")%string
      then description ++ LF ++ descriptionSuffix
      else description in
    let title := titlePrefix ++ ": " ++ formatTimestamp (ctx_startTime ctx) in
    if negb flagPush then
      call (slog Info
        ("Push not specified; would have created PR with the following title and description:"
           ++ LF ++ title ++ LF ++ LF ++ description) []);;
      Ret (None, None)
    else
      '(gitHubRepo, err) <- call (gitrepo_GetGitHubRepoFromRemote (ctx_languageRepo ctx));;
      match err with
      | Some e => Ret (None, Some e)
      | None =>
          let branch :=
            "librarian-" ++ branchType ++ "-" ++ formatTimestamp (ctx_startTime ctx) in
          token <- call githubrepo_GetAccessToken;;
          err <- call (gitrepo_PushBranch (ctx_languageRepo ctx) branch token);;
          match err with
          | Some e =>
              call (slog Info ("Received error pushing branch: '" ++ Error e ++ "'") []);;
              Ret (None, Some e)
          | None =>
              call (githubrepo_CreatePullRequest (ctx_ctx ctx) gitHubRepo branch title
                      description)
          end
      end.

(** ** The generate command *)

Definition runGenerateCommand (state : commandState) (outputDir : string)
  : Prog (string * option error) :=
  '(apiRoot, err) <- call (filepath_Abs flagAPIRoot);;
  match err with
  | Some e => Ret ("", Some e)
  | None =>
      match languageRepo state with
      | Some repo =>
          let libraryID := findLibraryIDByApiPath (pipelineState state) flagAPIPath in
          if (libraryID =? "")%string then
            Ret ("", Some (errors_New
              "bug in Librarian: Library not found during generation, despite being found in earlier steps"))
          else
            let generatorInput := filepath_Join [Dir repo; "generator-input"] in
            call (slog Info ("Performing refined generation for library " ++ libraryID) []);;
            err <- call (container_GenerateLibrary (containerConfig state) apiRoot
                           outputDir generatorInput libraryID);;
            Ret (libraryID, err)
      | None =>
          call (slog Info
            ("No matching library found (or no repo specified); performing raw generation for "
               ++ flagAPIPath) []);;
          err <- call (container_GenerateRaw (containerConfig state) apiRoot outputDir
                         flagAPIPath);;
          Ret ("", err)
      end
  end.

Definition runGenerate (state : commandState) : Prog (option error) :=
  match validateRequiredFlag "api-path" flagAPIPath with
  | Some e => Ret (Some e)
  | None =>
  match validateRequiredFlag "api-root" flagAPIRoot with
  | Some e => Ret (Some e)
  | None =>
      let outputDir := filepath_Join [workRoot state; "output"] in
      (* 0755 *)
      err <- call (os_Mkdir outputDir 493);;
      match err with
      | Some e => Ret (Some e)
      | None =>
          call (slog Info ("Code will be generated in " ++ outputDir) []);;
          '(libraryID, err) <- runGenerateCommand state outputDir;;
          match err with
          | Some e => Ret (Some e)
          | None =>
              if flagBuild then
                if negb (libraryID =? "")%string then
                  call (slog Info
                    "Build requested in the context of refined generation; cleaning and copying code to the local language repo before building."
                    []);;
                  repo <- deref (languageRepo state);;
                  err <- call (container_Clean (containerConfig state) (Dir repo) libraryID);;
                  match err with
                  | Some e => Ret (Some e)
                  | None =>
                      repo <- deref (languageRepo state);;
                      err <- call (os_CopyFS (Dir repo) (os_DirFS outputDir));;
                      match err with
                      | Some e => Ret (Some e)
                      | None =>
                          repo <- deref (languageRepo state);;
                          err <- call (container_BuildLibrary (containerConfig state)
                                         (Dir repo) libraryID);;
                          match err with
                          | Some e => Ret (Some e)
                          | None => Ret None
                          end
                      end
                  end
                else
                  err <- call (container_BuildRaw (containerConfig state) outputDir
                                 flagAPIPath);;
                  match err with
                  | Some e => Ret (Some e)
                  | None => Ret None
                  end
              else Ret None
          end
      end
  end
  end.

(** The outcome of one item of a batch, as its caller records it. *)
Inductive Recording : Type :=
| Succeeded (text : string)
| Failed (id : string) (err : option error) (action : string).

(** A caller that records the outcomes of a batch one after the other. *)
Fixpoint recordAll (outcomes : list Recording) (pr : PullRequestContent)
  : Prog PullRequestContent :=
  match outcomes with
  | [] => Ret pr
  | Succeeded text :: rest => recordAll rest (addSuccessToPullRequest pr text)
  | Failed id err action :: rest =>
      pr' <- addErrorToPullRequest pr id err action;;
      recordAll rest pr'
  end.

(** The line that stands for a failure in a pull request. *)
Definition errorSummary (action id : string) : string :=
  "Error while " ++ action ++ " " ++ id.

Definition successTexts (outcomes : list Recording) : list string :=
  flat_map (fun o => match o with
                     | Succeeded text => [text]
                     | Failed _ _ _ => []
                     end) outcomes.

Definition errorSummaries (outcomes : list Recording) : list string :=
  flat_map (fun o => match o with
                     | Succeeded _ => []
                     | Failed id _ action => [errorSummary action id]
                     end) outcomes.

(** *** What a pull request is made of

    The render rule of the aggregator and the naming rules of the
    publisher, as functions of their own: the statements below compare
    [createPullRequest] with them. *)

Definition section (heading : string) (items : list string) : string :=
  heading ++ LF ++ "==================" ++ LF ++ formatListAsMarkdown items.

Definition renderContent (content : PullRequestContent) : string :=
  match Errors content with
  | [] => formatListAsMarkdown (Successes content)
  | _ :: _ =>
      section "Errors:" (Errors content) ++ LF ++ LF
        ++ section "Changes Included:" (Successes content)
  end.

Definition withSuffix (rendered descriptionSuffix : string) : string :=
  match descriptionSuffix with
  | EmptyString => rendered
  | String _ _ => rendered ++ LF ++ descriptionSuffix
  end.

Definition prTitle (ctx : CommandContext) (titlePrefix : string) : string :=
  titlePrefix ++ ": " ++ formatTimestamp (ctx_startTime ctx).

Definition prBranch (ctx : CommandContext) (branchType : string) : string :=
  "librarian-" ++ branchType ++ "-" ++ formatTimestamp (ctx_startTime ctx).

Definition dryRunReport (title description : string) : string :=
  "Push not specified; would have created PR with the following title and description:"
    ++ LF ++ title ++ LF ++ LF ++ description.

(** The four ways in which publishing a pull request with the given title,
    description and branch can go. *)
Inductive publishBehaviour (ctx : CommandContext) (title description branch : string)
  : Outcome (option PullRequestMetadata * option error) -> list Event -> Prop :=
| publish_dry_run :
    flagPush = false ->
    publishBehaviour ctx title description branch
      (Returned (None, None))
      [Ev (slog Info (dryRunReport title description) []) tt]
| publish_no_remote (gitHubRepo : GitHubRepo) (e : error) :
    flagPush = true ->
    publishBehaviour ctx title description branch
      (Returned (None, Some e))
      [Ev (gitrepo_GetGitHubRepoFromRemote (ctx_languageRepo ctx)) (gitHubRepo, Some e)]
| publish_push_failed (gitHubRepo : GitHubRepo) (token : AccessToken) (e : error) :
    flagPush = true ->
    publishBehaviour ctx title description branch
      (Returned (None, Some e))
      [Ev (gitrepo_GetGitHubRepoFromRemote (ctx_languageRepo ctx)) (gitHubRepo, None);
       Ev githubrepo_GetAccessToken token;
       Ev (gitrepo_PushBranch (ctx_languageRepo ctx) branch token) (Some e);
       Ev (slog Info ("Received error pushing branch: '" ++ Error e ++ "'") []) tt]
| publish_pushed (gitHubRepo : GitHubRepo) (token : AccessToken)
    (created : option PullRequestMetadata * option error) :
    flagPush = true ->
    publishBehaviour ctx title description branch
      (Returned created)
      [Ev (gitrepo_GetGitHubRepoFromRemote (ctx_languageRepo ctx)) (gitHubRepo, None);
       Ev githubrepo_GetAccessToken token;
       Ev (gitrepo_PushBranch (ctx_languageRepo ctx) branch token) None;
       Ev (githubrepo_CreatePullRequest (ctx_ctx ctx) gitHubRepo branch title description)
          created].

(** The three ways in which the build of a library, after its generation,
    can go: the steps made and what [runGenerate] returns. *)
Inductive refinedBuild (config : ContainerConfig) (repoDir outputDir libraryID : string)
  : Outcome (option error) -> list Event -> Prop :=
| build_clean_failed (e : error) :
    refinedBuild config repoDir outputDir libraryID
      (Returned (Some e))
      [Ev (container_Clean config repoDir libraryID) (Some e)]
| build_copy_failed (e : error) :
    refinedBuild config repoDir outputDir libraryID
      (Returned (Some e))
      [Ev (container_Clean config repoDir libraryID) None;
       Ev (os_CopyFS repoDir (os_DirFS outputDir)) (Some e)]
| build_library_ran (answer : option error) :
    refinedBuild config repoDir outputDir libraryID
      (Returned answer)
      [Ev (container_Clean config repoDir libraryID) None;
       Ev (os_CopyFS repoDir (os_DirFS outputDir)) None;
       Ev (container_BuildLibrary config repoDir libraryID) answer].

Definition buildNotice : string :=
  "Build requested in the context of refined generation; cleaning and copying code to the local language repo before building.".

Definition libraryNotFound : string :=
  "bug in Librarian: Library not found during generation, despite being found in earlier steps".

(** Checks if the library with the given API path exists in the repo
    specified either by a URL or a local path, and opens or clones it if so. *)
Definition openOrCloneLanguageRepoIfLibraryExists (workRoot : string)
  : Prog (option Repo * option error) :=
  if (flagRepoUrl =? "")%string && (flagRepoRoot =? "")%string then
    call (slog Warn
      "repo url and root are not specified, cannot check if library exists" []);;
    Ret (None, None)
  else if negb (flagRepoRoot =? "")%string && negb (flagRepoUrl =? "")%string then
    Ret (None, Some (errors_New "do not specify both repo-root and repo-url"))
  else
    (* the statements after the load, shared by its two branches *)
    let afterLoad (loaded : option PipelineState * option error) :=
      let '(pipelineState, err) := loaded in
      match err with
      | Some e => Ret (None, Some e)
      | None =>
          let libraryID := findLibraryIDByApiPath pipelineState flagAPIPath in
          if (libraryID =? "")%string then
            call (slog Info ("API path " ++ flagAPIPath ++ " not configured in repo") []);;
            Ret (None, None)
          else
            call (slog Info ("API path " ++ flagAPIPath ++ " configured in repo library "
                               ++ libraryID) []);;
            call (cloneOrOpenLanguageRepo workRoot)
      end in
    if negb (flagRepoRoot =? "")%string then
      loaded <- call (loadPipelineStateFile
                        (filepath_Join [flagRepoRoot; "generator-input"; pipelineStateFile]));;
      afterLoad loaded
    else
      '(languageRepoMetadata, err) <- call (githubrepo_ParseUrl flagRepoUrl);;
      match err with
      | Some e =>
          call (slog Warn "failed to parse" ["repo url:"; flagRepoUrl; "error"; Error e]);;
          Ret (None, Some e)
      | None =>
          loaded <- call (fetchRemotePipelineState context_Background
                            languageRepoMetadata "HEAD");;
          afterLoad loaded
      end.

End Source.

(** ** Observing a trace *)

Section Observations.
Context {X : Externals}.

Definition isLog (e : Event) : bool :=
  match e with
  | Ev c _ => match c with slog _ _ _ => true | _ => false end
  end.

Definition isRemoteLookup (e : Event) : bool :=
  match e with
  | Ev c _ => match c with gitrepo_GetGitHubRepoFromRemote _ => true | _ => false end
  end.

Definition isPushBranch (e : Event) : bool :=
  match e with
  | Ev c _ => match c with gitrepo_PushBranch _ _ _ => true | _ => false end
  end.

Definition isCreatePullRequest (e : Event) : bool :=
  match e with
  | Ev c _ => match c with githubrepo_CreatePullRequest _ _ _ _ _ => true | _ => false end
  end.

(** The answer of a branch push, when the event is one. *)
Definition pushOutcome (e : Event) : option (option error) :=
  match e with
  | Ev c r =>
      match c in Call R return R -> option (option error) with
      | gitrepo_PushBranch _ _ _ => fun r => Some r
      | _ => fun _ => None
      end r
  end.

(** The description handed to GitHub, when the event creates a pull request. *)
Definition createdDescription (e : Event) : option string :=
  match e with
  | Ev c _ =>
      match c with
      | githubrepo_CreatePullRequest _ _ _ _ description => Some description
      | _ => None
      end
  end.

Definition isGenerateLibrary (e : Event) : bool :=
  match e with
  | Ev c _ => match c with container_GenerateLibrary _ _ _ _ _ => true | _ => false end
  end.

Definition isGenerateRaw (e : Event) : bool :=
  match e with
  | Ev c _ => match c with container_GenerateRaw _ _ _ _ => true | _ => false end
  end.

Definition pushSucceeded (e : Event) : bool :=
  match pushOutcome e with
  | Some None => true
  | _ => false
  end.

(** A monitor: every pull-request creation of [tr] comes after a branch
    push that succeeded ([pushed] tells whether one happened before [tr]). *)
Fixpoint createdAfterPush (pushed : bool) (tr : list Event) : bool :=
  match tr with
  | [] => true
  | e :: rest =>
      (negb (isCreatePullRequest e) || pushed)
      && createdAfterPush (pushed || pushSucceeded e) rest
  end.

(** No lookup of the remote, no push, no pull-request creation. *)
Definition offline (e : Event) : bool :=
  negb (isRemoteLookup e || isPushBranch e || isCreatePullRequest e).

(** The descriptions of the pull requests a trace creates. *)
Definition publishedDescriptions (tr : list Event) : list string :=
  flat_map (fun e => match createdDescription e with
                     | Some d => [d]
                     | None => []
                     end) tr.

(** Some text stands before the list of [items] in [description]. *)
Definition underHeading (description : string) (items : list string) : Prop :=
  exists heading rest : string,
    heading <> "" /\ description = heading ++ formatListAsMarkdown items ++ rest.

End Observations.

(** ** Further observations *)

Section Monitors.
Context {X : Externals} {F : Flags}.

(** A monitor: every event of [tr] that satisfies [trigger] comes after an
    event that satisfies [guard] ([armed] tells whether one came before
    [tr]). *)
Fixpoint guardedBy (guard trigger : Event -> bool) (armed : bool) (tr : list Event)
  : bool :=
  match tr with
  | [] => true
  | e :: rest =>
      (negb (trigger e) || armed) && guardedBy guard trigger (armed || guard e) rest
  end.

Definition isLocalLoad (e : Event) : bool :=
  match e with
  | Ev c _ => match c with loadPipelineStateFile _ => true | _ => false end
  end.

Definition isParseUrl (e : Event) : bool :=
  match e with
  | Ev c _ => match c with githubrepo_ParseUrl _ => true | _ => false end
  end.

Definition isRemoteFetch (e : Event) : bool :=
  match e with
  | Ev c _ => match c with fetchRemotePipelineState _ _ _ => true | _ => false end
  end.

Definition isClone (e : Event) : bool :=
  match e with
  | Ev c _ => match c with cloneOrOpenLanguageRepo _ => true | _ => false end
  end.

(** The answer of [cloneOrOpenLanguageRepo], when the event is that call. *)
Definition cloneAnswer (e : Event) : option (option Repo * option error) :=
  match e with
  | Ev c r =>
      match c in Call R return R -> option (option Repo * option error) with
      | cloneOrOpenLanguageRepo _ => fun r => Some r
      | _ => fun _ => None
      end r
  end.

(** The pipeline state an event delivers: a local load or a remote fetch
    that answered without error. *)
Definition loadedState (e : Event) : option (option PipelineState) :=
  match e with
  | Ev c r =>
      match c in Call R return R -> option (option PipelineState) with
      | loadPipelineStateFile _ =>
          fun r => match snd r with None => Some (fst r) | Some _ => None end
      | fetchRemotePipelineState _ _ _ =>
          fun r => match snd r with None => Some (fst r) | Some _ => None end
      | _ => fun _ => None
      end r
  end.

(** The error with which a local load, a URL parse or a remote fetch
    answered. *)
Definition loadFailure (e : Event) : option error :=
  match e with
  | Ev c r =>
      match c in Call R return R -> option error with
      | loadPipelineStateFile _ => fun r => snd r
      | githubrepo_ParseUrl _ => fun r => snd r
      | fetchRemotePipelineState _ _ _ => fun r => snd r
      | _ => fun _ => None
      end r
  end.

(** The event delivers a state in which the API path has a library. *)
Definition foundLibrary (e : Event) : bool :=
  match loadedState e with
  | Some state => negb (findLibraryIDByApiPath state flagAPIPath =? "")%string
  | None => false
  end.

(** The answer of a generation call, when the event is one. *)
Definition generationAnswer (e : Event) : option (option error) :=
  match e with
  | Ev c r =>
      match c in Call R return R -> option (option error) with
      | container_GenerateLibrary _ _ _ _ _ => fun r => Some r
      | container_GenerateRaw _ _ _ _ => fun r => Some r
      | _ => fun _ => None
      end r
  end.

Definition generationSucceeded (e : Event) : bool :=
  match generationAnswer e with
  | Some None => true
  | _ => false
  end.

(** The library id given to [container.GenerateLibrary]. *)
Definition generatedLibrary (e : Event) : option string :=
  match e with
  | Ev c _ =>
      match c with
      | container_GenerateLibrary _ _ _ _ libraryID => Some libraryID
      | _ => None
      end
  end.

(** The library id given to [container.Clean] or [container.BuildLibrary]. *)
Definition builtLibrary (e : Event) : option string :=
  match e with
  | Ev c _ =>
      match c with
      | container_Clean _ _ libraryID => Some libraryID
      | container_BuildLibrary _ _ libraryID => Some libraryID
      | _ => None
      end
  end.

Definition isBuildRaw (e : Event) : bool :=
  match e with
  | Ev c _ => match c with container_BuildRaw _ _ _ => true | _ => false end
  end.

(** Clean, copy and build: the steps that follow a generation. *)
Definition isBuildStep (e : Event) : bool :=
  match e with
  | Ev c _ =>
      match c with
      | container_Clean _ _ _ => true
      | os_CopyFS _ _ => true
      | container_BuildLibrary _ _ _ => true
      | container_BuildRaw _ _ _ => true
      | _ => false
      end
  end.

(** A generation call of either kind. *)
Definition isGeneration (e : Event) : bool :=
  isGenerateLibrary e || isGenerateRaw e.

Definition isAccessToken (e : Event) : bool :=
  match e with
  | Ev c _ => match c with githubrepo_GetAccessToken => true | _ => false end
  end.

(** The error with which the lookup of the remote answered. *)
Definition lookupFailure (e : Event) : option error :=
  match e with
  | Ev c r =>
      match c in Call R return R -> option error with
      | gitrepo_GetGitHubRepoFromRemote _ => fun r => snd r
      | _ => fun _ => None
      end r
  end.

(** The branch and the title of the pull request an event creates. *)
Definition createdBranch (e : Event) : option string :=
  match e with
  | Ev c _ =>
      match c with
      | githubrepo_CreatePullRequest _ _ branch _ _ => Some branch
      | _ => None
      end
  end.

Definition createdTitle (e : Event) : option string :=
  match e with
  | Ev c _ =>
      match c with
      | githubrepo_CreatePullRequest _ _ _ title _ => Some title
      | _ => None
      end
  end.

(** The branch an event pushes without error. *)
Definition pushedBranch (e : Event) : option string :=
  match e with
  | Ev c r =>
      match c in Call R return R -> option string with
      | gitrepo_PushBranch _ branch _ =>
          fun r => match r with None => Some branch | Some _ => None end
      | _ => fun _ => None
      end r
  end.

(** The answer of a pull-request creation. *)
Definition creationAnswer (e : Event)
  : option (option PullRequestMetadata * option error) :=
  match e with
  | Ev c r =>
      match c in Call R
            return R -> option (option PullRequestMetadata * option error) with
      | githubrepo_CreatePullRequest _ _ _ _ _ => fun r => Some r
      | _ => fun _ => None
      end r
  end.

(** A string without line break. *)
Fixpoint singleLine (s : string) : bool :=
  match s with
  | EmptyString => true
  | String c rest => negb (Ascii.eqb c (ascii_of_nat 10)) && singleLine rest
  end.

Definition allFailed (outcomes : list Recording) : bool :=
  forallb (fun o => match o with Failed _ _ _ => true | Succeeded _ => false end)
    outcomes.

(** The output directory a generation, a copy or a raw build works on. *)
Definition outputOf (e : Event) : option string :=
  match e with
  | Ev c _ =>
      match c with
      | container_GenerateLibrary _ _ outputDir _ _ => Some outputDir
      | container_GenerateRaw _ _ outputDir _ => Some outputDir
      | container_BuildRaw _ outputDir _ => Some outputDir
      | os_CopyFS _ (os_DirFS outputDir) => Some outputDir
      | _ => None
      end
  end.



(** [tr] is [pre], then [e], then [post]. *)
Fixpoint splitsAs (tr pre : list Event) (e : Event) (post : list Event) : Prop :=
  match tr with
  | [] => False
  | x :: rest =>
      (pre = [] /\ e = x /\ post = rest)
      \/ (exists pre', pre = x :: pre' /\ splitsAs rest pre' e post)
  end.

End Monitors.

(** ** A sample installation

    Concrete collaborators, flags and environments on which the statements
    below are exercised. *)

Module Sample.

Definition lookup (state : option PipelineState) (apiPath : string) : string :=
  match state with
  | None => ""
  | Some st =>
      match find (fun lib => existsb (String.eqb apiPath) (api_paths lib)) (libraries st) with
      | Some lib => id lib
      | None => ""
      end
  end.

Definition externals : Externals := {|
  error := string;
  errors_New := fun msg => msg;
  Error := fun e => e;
  ContainerConfig := string;
  time_Time := string;
  context_Context := unit;
  GitHubRepo := string;
  PullRequestMetadata := nat;
  AccessToken := string;
  context_Background := tt;
  formatTimestamp := fun t => t;
  filepath_Join := String.concat "/";
  pipelineStateFile := "pipeline-state.json";
  validateRequiredFlag := fun name value =>
    if (value =? "")%string then Some ("required flag -" ++ name ++ " not specified")
    else None;
  findLibraryIDByApiPath := lookup
|}.

Definition flags (build push : bool) : Flags := {|
  flagAPIPath := "google/cloud/functions/v2";
  flagAPIRoot := "/apis";
  flagBuild := build;
  flagRepoRoot := "";
  flagRepoUrl := "";
  flagPush := push
|}.

Definition functions : LibraryState := {|
  id := "google-cloud-functions";
  current_version := "1.2.0";
  next_version := "";
  generation_automation_level := AUTOMATION_LEVEL_AUTOMATIC;
  release_automation_level := AUTOMATION_LEVEL_MANUAL_REVIEW;
  release_timestamp := None;
  last_generated_commit := "";
  last_released_commit := "";
  api_paths := ["google/cloud/functions/v2"];
  source_paths := []
|}.

Definition tracked : PipelineState := {|
  image_tag := "latest";
  libraries := [functions];
  common_library_source_paths := [];
  ignored_api_paths := []
|}.

Definition untracked : PipelineState := {|
  image_tag := "latest";
  libraries := [];
  common_library_source_paths := [];
  ignored_api_paths := []
|}.

Definition image : @ContainerConfig externals := "gcr.io/sample/generator".

Definition refined : @commandState externals := {|
  workRoot := "/work";
  languageRepo := Some {| Dir := "/repo" |};
  pipelineState := Some tracked;
  containerConfig := image
|}.

Definition stale : @commandState externals := {|
  workRoot := "/work";
  languageRepo := Some {| Dir := "/repo" |};
  pipelineState := Some untracked;
  containerConfig := image
|}.

Definition raw : @commandState externals := {|
  workRoot := "/work";
  languageRepo := None;
  pipelineState := None;
  containerConfig := image
|}.

Definition context : @CommandContext externals := {|
  ctx_ctx := (tt : @context_Context externals);
  ctx_startTime := ("20250101T000000" : @time_Time externals);
  ctx_languageRepo := Some {| Dir := "/repo" |}
|}.

Definition mixed : PullRequestContent :=
  {| Successes := ["Regenerated google-cloud-functions"];
     Errors := ["Error while generating google-cloud-run"] |}.

Definition successesOnly : PullRequestContent :=
  {| Successes := ["a"]; Errors := [] |}.

(** Every collaborator succeeds. *)
Definition cooperative : @Oracle externals :=
  fun _ R c =>
    match c in Call R return R with
    | slog _ _ _ => tt
    | filepath_Abs path => (path, None)
    | os_Mkdir _ _ => None
    | os_CopyFS _ _ => None
    | container_GenerateLibrary _ _ _ _ _ => None
    | container_GenerateRaw _ _ _ _ => None
    | container_Clean _ _ _ => None
    | container_BuildLibrary _ _ _ => None
    | container_BuildRaw _ _ _ => None
    | loadPipelineStateFile _ => (Some tracked, None)
    | githubrepo_ParseUrl url => (url, None)
    | fetchRemotePipelineState _ _ _ => (Some tracked, None)
    | cloneOrOpenLanguageRepo _ => (Some {| Dir := "/repo" |}, None)
    | gitrepo_GetGitHubRepoFromRemote _ => ("googleapis/google-cloud-sample", None)
    | githubrepo_GetAccessToken => "token"
    | gitrepo_PushBranch _ _ _ => None
    | githubrepo_CreatePullRequest _ _ _ _ _ => (Some 7, None)
    end.

(** As [cooperative], but the branch push is rejected. *)
Definition rejectingPush : @Oracle externals :=
  fun hist R c =>
    match c in Call R return R -> R with
    | gitrepo_PushBranch _ _ _ => fun _ => Some "remote rejected"
    | _ => fun r => r
    end (cooperative hist c).

(** The flags of a run on a local checkout and of a run on a remote
    repository; [contradictory] gives both, [unnamed] no API path. *)
Definition onCheckout : Flags := {|
  flagAPIPath := "google/cloud/functions/v2";
  flagAPIRoot := "/apis";
  flagBuild := true;
  flagRepoRoot := "/repo";
  flagRepoUrl := "";
  flagPush := false
|}.

Definition onRemote : Flags := {|
  flagAPIPath := "google/cloud/functions/v2";
  flagAPIRoot := "/apis";
  flagBuild := true;
  flagRepoRoot := "";
  flagRepoUrl := "https://github.com/googleapis/google-cloud-sample";
  flagPush := false
|}.

Definition contradictory : Flags := {|
  flagAPIPath := "google/cloud/functions/v2";
  flagAPIRoot := "/apis";
  flagBuild := true;
  flagRepoRoot := "/repo";
  flagRepoUrl := "https://github.com/googleapis/google-cloud-sample";
  flagPush := false
|}.

Definition unnamed : Flags := {|
  flagAPIPath := "";
  flagAPIRoot := "/apis";
  flagBuild := true;
  flagRepoRoot := "";
  flagRepoUrl := "";
  flagPush := false
|}.

(** As [cooperative], but the working directory cannot be determined. *)
Definition noWorkingDirectory : @Oracle externals :=
  fun hist R c =>
    match c in Call R return R -> R with
    | filepath_Abs _ => fun _ => ("", Some "getwd: no such file or directory")
    | _ => fun r => r
    end (cooperative hist c).

(** A batch of one success and one failure. *)
Definition batch : list (@Recording externals) :=
  [Succeeded "Regenerated google-cloud-functions";
   Failed "google-cloud-run" (Some ("exit status 1" : @error externals)) "generating"].

(** As [cooperative], but the generator fails. *)
Definition brokenGenerator : @Oracle externals :=
  fun hist R c =>
    match c in Call R return R -> R with
    | container_GenerateLibrary _ _ _ _ _ => fun _ => Some "exit status 1"
    | container_GenerateRaw _ _ _ _ => fun _ => Some "exit status 1"
    | _ => fun r => r
    end (cooperative hist c).

(** As [cooperative], but the remote of the repository is not on GitHub. *)
Definition foreignRemote : @Oracle externals :=
  fun hist R c =>
    match c in Call R return R -> R with
    | gitrepo_GetGitHubRepoFromRemote _ => fun _ => ("", Some "not a GitHub remote")
    | _ => fun r => r
    end (cooperative hist c).

(** As [cooperative], but the pipeline state cannot be read. *)
Definition unreadableState : @Oracle externals :=
  fun hist R c =>
    match c in Call R return R -> R with
    | loadPipelineStateFile _ => fun _ => (None, Some "open: no such file or directory")
    | fetchRemotePipelineState _ _ _ => fun _ => (None, Some "404 Not Found")
    | _ => fun r => r
    end (cooperative hist c).

(** As [cooperative], but the pipeline state lists no library. *)
Definition emptyState : @Oracle externals :=
  fun hist R c =>
    match c in Call R return R -> R with
    | loadPipelineStateFile _ => fun _ => (Some untracked, None)
    | fetchRemotePipelineState _ _ _ => fun _ => (Some untracked, None)
    | _ => fun r => r
    end (cooperative hist c).

End Sample.

(** ** Properties of the executions *)

Unset Implicit Arguments.

Section Properties.
Context {X : Externals} {F : Flags}.

Lemma run_bind (A B : Type) (env : Oracle) (p : Prog A) (f : A -> Prog B) :
  forall hist,
    run env (bind p f) hist =
    match run env p hist with
    | (Returned a, t1) =>
        let rest := run env (f a) (hist ++ t1)%list in
        (fst rest, (t1 ++ snd rest)%list)
    | (Panicked msg, t1) => (Panicked msg, t1)
    end.
Proof.
  induction p as [a | msg | R c k IH]; intro hist; simpl.
  - rewrite app_nil_r. destruct (run env (f a) hist); reflexivity.
  - reflexivity.
  - rewrite IH.
    destruct (run env (k (env hist R c)) (hist ++ [Ev c (env hist R c)])%list)
      as [[a | msg] t1]; simpl.
    + rewrite <- app_assoc. reflexivity.
    + reflexivity.
Qed.

Lemma run_log_each (env : Oracle) (level : Level) (lines : list string) :
  forall hist,
    run env (forEach lines (fun line => call (slog level line []))) hist
    = (Returned tt, map (fun line => Ev (slog level line []) tt) lines).
Proof.
  induction lines as [| line rest IH]; intro hist; simpl.
  - reflexivity.
  - rewrite IH. destruct (env hist unit (slog level line [])). reflexivity.
Qed.

Lemma logs_only (level : Level) (lines : list string) :
  forallb isLog (map (fun line => Ev (slog level line []) tt) lines) = true.
Proof. induction lines; simpl; auto. Qed.

Lemma logs_offline (tr : list Event) :
  forallb isLog tr = true -> forallb offline tr = true.
Proof.
  induction tr as [| [R c r] tr IH]; simpl; [reflexivity |].
  intro H. apply andb_prop in H. destruct H as [Hc Htr].
  rewrite (IH Htr), andb_true_r. destruct c; try discriminate Hc; reflexivity.
Qed.

Lemma createdAfterPush_sound (tr : list Event) :
  forall pushed,
    createdAfterPush pushed tr = true ->
    forall pre e post,
      tr = (pre ++ e :: post)%list ->
      isCreatePullRequest e = true ->
      pushed = true \/ exists p, In p pre /\ pushOutcome p = Some None.
Proof.
  induction tr as [| x tr IH]; intros pushed Hm pre e post Heq Hc.
  - destruct pre; discriminate Heq.
  - simpl in Hm. apply andb_prop in Hm. destruct Hm as [Hx Hrest].
    destruct pre as [| y pre]; simpl in Heq.
    + assert (x = e) by congruence. subst x.
      rewrite Hc in Hx. simpl in Hx. left. exact Hx.
    + assert (x = y) by congruence. subst y.
      assert (Htr : tr = (pre ++ e :: post)%list) by congruence.
      destruct (IH _ Hrest pre e post Htr Hc) as [Hp | [p [Hin Hp]]].
      * destruct pushed; [left; reflexivity |]. right. exists x. split.
        -- left. reflexivity.
        -- simpl in Hp. unfold pushSucceeded in Hp.
           destruct (pushOutcome x) as [[err |] |]; try discriminate Hp. reflexivity.
      * right. exists p. split; [right; exact Hin | exact Hp].
Qed.


(** Case analysis on, or a name for, the next answer of the environment. *)
Ltac case_answer env R :=
  match goal with
  | |- context [env ?h R ?c] => destruct (env h R c)
  end.

Ltac name_answer env R x :=
  match goal with
  | |- context [env ?h R ?c] => set (x := env h R c)
  end.

(** A creation found in a trace that passes the push monitor. *)
Ltac monitored Heq He :=
  match type of Heq with
  | ?t = _ =>
      let H := fresh in
      destruct (createdAfterPush_sound t false eq_refl _ _ _ Heq He) as [H | H];
      [discriminate H | exact H]
  end.

(** Case analysis on the position of an event in an explicit trace. *)
Ltac in_trace Hin :=
  repeat (destruct Hin as [<- | Hin]); [.. | destruct Hin].

(** *** createPullRequest *)

Lemma any_nonempty (A : Type) (l : list A) :
  l <> [] -> (0 <? List.length l)%nat = true.
Proof. destruct l; [congruence | reflexivity]. Qed.

Lemma createPullRequest_publishes (env : Oracle) (hist : list Event)
  (ctx : CommandContext) (content : PullRequestContent)
  (titlePrefix descriptionSuffix branchType : string) :
  Successes content <> [] ->
  publishBehaviour ctx (prTitle ctx titlePrefix)
    (withSuffix (renderContent content) descriptionSuffix)
    (prBranch ctx branchType)
    (fst (run env (createPullRequest ctx content titlePrefix descriptionSuffix branchType) hist))
    (snd (run env (createPullRequest ctx content titlePrefix descriptionSuffix branchType) hist)).
Proof.
  intro Hs. unfold createPullRequest.
  rewrite (any_nonempty _ _ Hs).
  unfold renderContent, section.
  destruct (Errors content) as [| e es]; destruct descriptionSuffix as [| a ds];
    destruct flagPush eqn:Hpush; cbn [negb andb Nat.ltb Nat.leb List.length String.eqb];
    cbn [run bind call fst snd].
  all: try (destruct (env hist unit _); apply publish_dry_run; assumption).
  all: destruct (env hist _ _) as [gitHubRepo [e' |]]; cbn [run bind call fst snd];
    [ apply publish_no_remote; assumption | ].
  all: name_answer env AccessToken token.
  all: case_answer env (option error); cbn [run bind call fst snd].
  all: try (apply publish_pushed; assumption).
  all: case_answer env unit; apply publish_push_failed; assumption.
Qed.

Lemma createPullRequest_empty (env : Oracle) (hist : list Event)
  (ctx : CommandContext) (content : PullRequestContent)
  (titlePrefix descriptionSuffix branchType : string) :
  Successes content = [] -> Errors content = [] ->
  run env (createPullRequest ctx content titlePrefix descriptionSuffix branchType) hist
  = (Returned (None, None), [Ev (slog Info "No PR to create, and no errors." []) tt]).
Proof.
  intros Hs He. unfold createPullRequest. rewrite Hs, He.
  cbn [negb andb Nat.ltb Nat.leb List.length]. cbn [run bind call fst snd].
  destruct (env hist unit _). reflexivity.
Qed.

Lemma createPullRequest_only_errors (env : Oracle) (hist : list Event)
  (ctx : CommandContext) (content : PullRequestContent)
  (titlePrefix descriptionSuffix branchType : string) :
  Successes content = [] -> Errors content <> [] ->
  run env (createPullRequest ctx content titlePrefix descriptionSuffix branchType) hist
  = (Returned (None, Some (errors_New "errors encountered but no PR to create")),
     Ev (slog ErrorLevel
           "No PR to create, but errors were logged (and restated below). Aborting." [])
        tt
     :: map (fun line => Ev (slog ErrorLevel line []) tt) (Errors content)).
Proof.
  intros Hs He. unfold createPullRequest. rewrite Hs, (any_nonempty _ _ He).
  cbn [negb andb Nat.ltb Nat.leb List.length]. cbn [run bind call fst snd].
  destruct (env hist unit _).
  rewrite run_bind, run_log_each. cbn [run fst snd].
  rewrite app_nil_r. reflexivity.
Qed.

(** C1, as the code has it.  For every content, [createPullRequest] ends in
    one of three ways.  Without successes and without errors it logs that
    there is nothing to do and returns no metadata and no error.  With errors
    and no success it logs the errors, returns no metadata and the error
    "errors encountered but no PR to create", and calls nothing but the
    logger.  With at least one success it goes on to publish, and an error
    comes back only from a collaborator of the publishing stage; the
    description is the bare list of the successes when there are no errors,
    and, when there are errors, their list under the heading "Errors:"
    followed by the list of the successes under "Changes Included:". *)
Theorem createPullRequest_three_outcomes (env : Oracle) (hist : list Event)
  (ctx : CommandContext) (content : PullRequestContent)
  (titlePrefix descriptionSuffix branchType : string) :
  let r := run env
             (createPullRequest ctx content titlePrefix descriptionSuffix branchType)
             hist in
  match Successes content, Errors content with
  | [], [] =>
      r = (Returned (None, None),
           [Ev (slog Info "No PR to create, and no errors." []) tt])
  | [], _ :: _ =>
      r = (Returned (None, Some (errors_New "errors encountered but no PR to create")),
           Ev (slog ErrorLevel
                 "No PR to create, but errors were logged (and restated below). Aborting."
                 []) tt
           :: map (fun line => Ev (slog ErrorLevel line []) tt) (Errors content))
      /\ forallb offline (snd r) = true
  | _ :: _, [] =>
      publishBehaviour ctx (prTitle ctx titlePrefix)
        (withSuffix (formatListAsMarkdown (Successes content)) descriptionSuffix)
        (prBranch ctx branchType) (fst r) (snd r)
  | _ :: _, _ :: _ =>
      publishBehaviour ctx (prTitle ctx titlePrefix)
        (withSuffix
           (section "Errors:" (Errors content) ++ LF ++ LF
              ++ section "Changes Included:" (Successes content))
           descriptionSuffix)
        (prBranch ctx branchType) (fst r) (snd r)
  end.
Proof.
  intro r. subst r.
  destruct (Successes content) as [| s ss] eqn:Hs.
  - destruct (Errors content) as [| e es] eqn:He.
    + apply createPullRequest_empty; assumption.
    + assert (Hne : Errors content <> []) by (rewrite He; discriminate).
      rewrite (createPullRequest_only_errors env hist ctx content titlePrefix
                 descriptionSuffix branchType Hs Hne).
      rewrite He. split; [reflexivity |].
      cbn [snd]. apply logs_offline. simpl. apply logs_only.
  - assert (Hne : Successes content <> []) by (rewrite Hs; discriminate).
    pose proof (createPullRequest_publishes env hist ctx content titlePrefix
                  descriptionSuffix branchType Hne) as H.
    unfold renderContent in H. rewrite Hs in H.
    destruct (Errors content) as [| e es]; exact H.
Qed.

(** C2.  With a success in the content and the push flag off,
    [createPullRequest] only logs the title and the description it would
    have used: no lookup of the remote, no push, no pull-request creation.
    It returns no metadata and no error, which is what it returns for an
    empty content. *)
Theorem createPullRequest_dry_run (env : Oracle) (hist : list Event)
  (ctx : CommandContext) (content : PullRequestContent)
  (titlePrefix descriptionSuffix branchType : string) :
  flagPush = false ->
  Successes content <> [] ->
  let r := run env
             (createPullRequest ctx content titlePrefix descriptionSuffix branchType)
             hist in
  r = (Returned (None, None),
       [Ev (slog Info
              (dryRunReport (prTitle ctx titlePrefix)
                 (withSuffix (renderContent content) descriptionSuffix)) []) tt])
  /\ forallb offline (snd r) = true
  /\ fst r = fst (run env
                    (createPullRequest ctx {| Successes := []; Errors := [] |}
                       titlePrefix descriptionSuffix branchType) hist).
Proof.
  intros Hpush Hs r. subst r.
  rewrite (createPullRequest_empty env hist ctx
             {| Successes := []; Errors := [] |} titlePrefix descriptionSuffix
             branchType eq_refl eq_refl).
  pose proof (createPullRequest_publishes env hist ctx content titlePrefix
                descriptionSuffix branchType Hs) as H.
  destruct (run env
              (createPullRequest ctx content titlePrefix descriptionSuffix branchType)
              hist) as [out tr].
  cbn [fst snd] in *.
  destruct H; try congruence.
  repeat split; reflexivity.
Qed.

Lemma log_is_quiet (e : Event) :
  isLog e = true ->
  isCreatePullRequest e = false /\ pushOutcome e = None /\ createdDescription e = None.
Proof.
  destruct e as [R c r]. destruct c; simpl; intro H; try discriminate H; auto.
Qed.

Lemma logs_quiet (tr : list Event) :
  forallb isLog tr = true ->
  createdAfterPush false tr = true
  /\ existsb isCreatePullRequest tr = false
  /\ publishedDescriptions tr = []
  /\ forall e, In e tr -> pushOutcome e = None.
Proof.
  induction tr as [| x tr IH]; simpl; intro H.
  - repeat split; auto. intros e [].
  - apply andb_prop in H. destruct H as [Hx Htr].
    destruct (IH Htr) as (Hm & Hc & Hd & Hp).
    destruct (log_is_quiet x Hx) as (Hxc & Hxp & Hxd).
    unfold pushSucceeded. rewrite Hxc, Hxp, Hxd, Hm, Hc, Hd.
    repeat split; auto.
    intros e [<- | Hin]; auto.
Qed.

(** What [createPullRequest] does when the content has no success: it only
    logs. *)
Lemma createPullRequest_nothing_published (env : Oracle) (hist : list Event)
  (ctx : CommandContext) (content : PullRequestContent)
  (titlePrefix descriptionSuffix branchType : string) :
  Successes content = [] ->
  forallb isLog
    (snd (run env
            (createPullRequest ctx content titlePrefix descriptionSuffix branchType)
            hist)) = true.
Proof.
  intro Hs. destruct (Errors content) as [| e es] eqn:He.
  - rewrite createPullRequest_empty by assumption. reflexivity.
  - rewrite createPullRequest_only_errors by (rewrite ?He; auto; discriminate).
    simpl. apply logs_only.
Qed.

Lemma splitsAs_complete (tr : list Event) :
  forall pre e post, tr = (pre ++ e :: post)%list -> splitsAs tr pre e post.
Proof.
  induction tr as [| x tr IH]; intros pre e post Heq.
  - destruct pre; discriminate Heq.
  - destruct pre as [| y pre]; simpl in Heq.
    + left. repeat split; congruence.
    + right. exists pre. split; [congruence |]. apply IH. congruence.
Qed.

(** Each position of an explicit trace in turn. *)
Ltac each_position Heq :=
  apply splitsAs_complete in Heq; cbn [splitsAs] in Heq;
  repeat match type of Heq with
         | _ \/ _ => destruct Heq as [Heq | Heq]
         | False => destruct Heq
         end;
  repeat match goal with
         | H : exists _, _ |- _ => destruct H as [? H]
         | H : _ /\ _ |- _ => destruct H
         | H : _ \/ _ |- _ => destruct H
         | H : False |- _ => destruct H
         end;
  subst.

(** C3.  In every execution of [createPullRequest]: a pull-request creation
    is on the branch "librarian-<branchType>-<timestamp>" and is preceded by
    a push of that very branch that answered without error; if a branch push
    answers with an error, that error is returned and no pull request is
    created; and once the push has succeeded the creation is attempted.
    With the push flag on and a success in the content, the branch is pushed
    as soon as the remote has been resolved. *)
Theorem createPullRequest_push_before_create (env : Oracle) (hist : list Event)
  (ctx : CommandContext) (content : PullRequestContent)
  (titlePrefix descriptionSuffix branchType : string)
  (out : Outcome (option PullRequestMetadata * option error)) (tr : list Event) :
  run env (createPullRequest ctx content titlePrefix descriptionSuffix branchType) hist
  = (out, tr) ->
  (forall pre e post,
      tr = (pre ++ e :: post)%list ->
      isCreatePullRequest e = true ->
      createdBranch e = Some (prBranch ctx branchType)
      /\ exists p,
           In p pre
           /\ pushOutcome p = Some None
           /\ pushedBranch p = Some (prBranch ctx branchType))
  /\ (forall e err,
         In e tr ->
         pushOutcome e = Some (Some err) ->
         out = Returned (None, Some err) /\ existsb isCreatePullRequest tr = false)
  /\ (forall e,
         In e tr ->
         pushOutcome e = Some None ->
         existsb isCreatePullRequest tr = true)
  /\ (flagPush = true ->
      Successes content <> [] ->
      forall gitHubRepo,
        env hist _ (gitrepo_GetGitHubRepoFromRemote (ctx_languageRepo ctx))
        = (gitHubRepo, None) ->
        existsb isPushBranch tr = true).
Proof.
  intro Hrun.
  destruct (Successes content) as [| s ss] eqn:Hs.
  - pose proof (createPullRequest_nothing_published env hist ctx content titlePrefix
                  descriptionSuffix branchType Hs) as Hlog.
    rewrite Hrun in Hlog. cbn [snd] in Hlog.
    destruct (logs_quiet tr Hlog) as (Hm & Hc & _ & Hp).
    split; [| split; [| split]].
    + intros pre e post Heq He.
      assert (Hin : In e tr) by (rewrite Heq; apply in_elt).
      rewrite forallb_forall in Hlog.
      destruct (log_is_quiet e (Hlog e Hin)) as (Hno & _). congruence.
    + intros e err Hin Hpush. rewrite (Hp e Hin) in Hpush. discriminate Hpush.
    + intros e Hin Hpush. rewrite (Hp e Hin) in Hpush. discriminate Hpush.
    + intros _ Hne. congruence.
  - assert (Hne : Successes content <> []) by (rewrite Hs; discriminate).
    pose proof (createPullRequest_publishes env hist ctx content titlePrefix
                  descriptionSuffix branchType Hne) as H.
    assert (Hfirst : flagPush = true ->
                     forall gitHubRepo,
                       env hist _ (gitrepo_GetGitHubRepoFromRemote (ctx_languageRepo ctx))
                       = (gitHubRepo, None) ->
                       existsb isPushBranch tr = true).
    { intros Hpush gitHubRepo Hlookup.
      apply (f_equal snd) in Hrun. cbn [snd] in Hrun. rewrite <- Hrun.
      unfold createPullRequest. rewrite Hs, Hpush.
      cbn [negb andb Nat.ltb Nat.leb List.length]. cbn [run bind call fst snd].
      rewrite Hlookup. cbn [run bind call fst snd].
      reflexivity. }
    rewrite Hrun in H. cbn [fst snd] in H.
    destruct H as [Hpush | gh e Hpush | gh token e Hpush | gh token created Hpush];
      (split; [| split; [| split]]); try (intros Hp _; exact (Hfirst Hp)).
    all: try (intros pre e0 post Heq He; each_position Heq; try discriminate He;
              (split;
               [reflexivity
               | eexists; split; [right; right; left; reflexivity | split; reflexivity]])).
    all: try (intros e0 err Hin Hp; in_trace Hin; simpl in Hp; try discriminate Hp).
    all: try (intros e0 Hin Hp; in_trace Hin; simpl in Hp; try discriminate Hp).
    + split; [congruence | reflexivity].
    + reflexivity.
Qed.

(** *** Text of a description *)

Lemma append_assoc (a b c : string) : (a ++ b) ++ c = a ++ (b ++ c).
Proof. induction a as [| x a IH]; simpl; [reflexivity | rewrite IH; reflexivity]. Qed.

Lemma append_nil_r (a : string) : a ++ "" = a.
Proof. induction a as [| x a IH]; simpl; [reflexivity | rewrite IH; reflexivity]. Qed.

Lemma length_append (a b : string) :
  String.length (a ++ b) = String.length a + String.length b.
Proof. induction a as [| x a IH]; simpl; [reflexivity | rewrite IH; reflexivity]. Qed.

Lemma writeEach_builder (list : list string) :
  forall builder, writeEach builder list = builder ++ formatListAsMarkdown list.
Proof.
  unfold formatListAsMarkdown.
  induction list as [| value rest IH]; intro builder; cbn [writeEach].
  - symmetry. apply append_nil_r.
  - rewrite IH. rewrite (IH ("" ++ ("- " ++ value ++ LF))).
    rewrite append_assoc. reflexivity.
Qed.

Lemma formatListAsMarkdown_cons (value : string) (rest : list string) :
  formatListAsMarkdown (value :: rest)
  = "- " ++ value ++ LF ++ formatListAsMarkdown rest.
Proof.
  unfold formatListAsMarkdown at 1. cbn [writeEach].
  rewrite writeEach_builder. change ("" ++ ("- " ++ value ++ LF)) with ("- " ++ value ++ LF).
  rewrite (append_assoc "- "), (append_assoc value). reflexivity.
Qed.

(** One line per value, "- " in front and a line break behind. *)
Lemma formatListAsMarkdown_lines (list : list string) :
  formatListAsMarkdown list
  = String.concat "" (map (fun value => "- " ++ value ++ LF) list).
Proof.
  induction list as [| value rest IH]; [reflexivity |].
  rewrite formatListAsMarkdown_cons, IH. simpl.
  destruct rest as [| v rest]; simpl.
  - reflexivity.
  - rewrite !append_assoc. reflexivity.
Qed.

Lemma formatListAsMarkdown_ends (list : list string) :
  list <> [] -> exists body, formatListAsMarkdown list = body ++ LF.
Proof.
  induction list as [| value rest IH]; intro Hne; [congruence |].
  rewrite formatListAsMarkdown_cons.
  destruct rest as [| v rest].
  - exists ("- " ++ value). reflexivity.
  - destruct IH as [body Hbody]; [discriminate |].
    rewrite Hbody. exists ("- " ++ value ++ LF ++ body).
    rewrite !append_assoc. reflexivity.
Qed.

Lemma renderContent_ends (content : PullRequestContent) :
  Successes content <> [] -> exists body, renderContent content = body ++ LF.
Proof.
  intro Hs. destruct (formatListAsMarkdown_ends _ Hs) as [body Hbody].
  unfold renderContent, section. destruct (Errors content) as [| e es].
  - exists body. exact Hbody.
  - rewrite Hbody. eexists. rewrite <- !append_assoc. reflexivity.
Qed.

(** With errors in the content, both lists of the rendered content stand
    under a heading. *)
Lemma renderContent_headings (content : PullRequestContent) :
  Errors content <> [] ->
  underHeading (renderContent content) (Errors content)
  /\ underHeading (renderContent content) (Successes content).
Proof.
  intro He. unfold renderContent, section.
  destruct (Errors content) as [| e es]; [congruence |].
  split.
  - exists ("Errors:" ++ LF ++ "==================" ++ LF). eexists.
    split; [discriminate |]. reflexivity.
  - exists ("Errors:" ++ LF ++ "==================" ++ LF
              ++ formatListAsMarkdown (e :: es) ++ LF ++ LF
              ++ "Changes Included:" ++ LF ++ "==================" ++ LF), "".
    split; [discriminate |].
    rewrite append_nil_r.
    repeat (rewrite ?append_assoc; cbn [append]; f_equal).
Qed.

(** C8.  Whenever [createPullRequest] publishes (the content has a success),
    the description it hands to GitHub, or reports in a dry run, is the
    rendered content followed, when [descriptionSuffix] is not empty, by a
    line break and the suffix as it is; with an empty suffix it is the
    rendered content itself.  The rendered content ends with a line break,
    so the suffix stands after an empty line, as a paragraph of its own.
    After a successful push there is exactly one such description. *)
Theorem createPullRequest_description (env : Oracle) (hist : list Event)
  (ctx : CommandContext) (content : PullRequestContent)
  (titlePrefix descriptionSuffix branchType : string) :
  Successes content <> [] ->
  let tr := snd (run env
                   (createPullRequest ctx content titlePrefix descriptionSuffix
                      branchType) hist) in
  exists description,
    (descriptionSuffix <> "" ->
     description = renderContent content ++ LF ++ descriptionSuffix)
    /\ (descriptionSuffix = "" -> description = renderContent content)
    /\ (exists body, renderContent content = body ++ LF)
    /\ (forall d, In d (publishedDescriptions tr) -> d = description)
    /\ (existsb pushSucceeded tr = true -> publishedDescriptions tr = [description])
    /\ (flagPush = false ->
        tr = [Ev (slog Info (dryRunReport (prTitle ctx titlePrefix) description) []) tt]).
Proof.
  intros Hs tr. subst tr.
  exists (withSuffix (renderContent content) descriptionSuffix).
  split; [| split; [| split]].
  - destruct descriptionSuffix; [congruence | reflexivity].
  - intros ->. reflexivity.
  - apply renderContent_ends. exact Hs.
  - pose proof (createPullRequest_publishes env hist ctx content titlePrefix
                  descriptionSuffix branchType Hs) as H.
    destruct (run env
                (createPullRequest ctx content titlePrefix descriptionSuffix branchType)
                hist) as [out tr].
    cbn [fst snd] in *.
    destruct H as [Hpush | gh e Hpush | gh token e Hpush | gh token created Hpush];
      (split; [| split]); simpl; try tauto; try congruence.
    intros d [<- | []]. reflexivity.
Qed.

(** *** The aggregator *)

Lemma run_addErrorToPullRequest (env : Oracle) (hist : list Event)
  (pr : PullRequestContent) (id : string) (err : option error) (action : string) :
  run env (addErrorToPullRequest pr id err action) hist
  = (Returned {| Successes := Successes pr;
                 Errors := app (Errors pr) [errorSummary action id] |},
     [Ev (slog Warn ("Error while " ++ action ++ " " ++ id ++ ": " ++ fmt_s err) []) tt]).
Proof.
  unfold addErrorToPullRequest. cbn [run bind call fst snd].
  destruct (env hist unit _). reflexivity.
Qed.

(** C7.  [addErrorToPullRequest] adds to the errors the line
    "Error while <action> <id>" and nothing else; the error value goes to the
    local log only.  Two calls that differ in the error value alone, in any
    two environments, give the same content, and so the same arguments for
    every later rendering of it. *)
Theorem addErrorToPullRequest_hides_detail (env1 env2 : Oracle)
  (hist1 hist2 : list Event) (pr : PullRequestContent) (id : string)
  (err1 err2 : option error) (action : string) :
  exists content,
    fst (run env1 (addErrorToPullRequest pr id err1 action) hist1) = Returned content
    /\ fst (run env2 (addErrorToPullRequest pr id err2 action) hist2) = Returned content
    /\ Successes content = Successes pr
    /\ Errors content = app (Errors pr) ["Error while " ++ action ++ " " ++ id]
    /\ snd (run env1 (addErrorToPullRequest pr id err1 action) hist1)
       = [Ev (slog Warn ("Error while " ++ action ++ " " ++ id ++ ": " ++ fmt_s err1) [])
             tt].
Proof.
  rewrite !run_addErrorToPullRequest. eexists. repeat split.
Qed.

Lemma run_recordAll (env : Oracle) (outcomes : list Recording) :
  forall hist pr,
    fst (run env (recordAll outcomes pr) hist)
    = Returned {| Successes := app (Successes pr) (successTexts outcomes);
                  Errors := app (Errors pr) (errorSummaries outcomes) |}.
Proof.
  induction outcomes as [| [text | id err action] rest IH]; intros hist pr.
  - simpl. rewrite !app_nil_r. destruct pr; reflexivity.
  - cbn [recordAll]. rewrite IH. simpl. rewrite <- app_assoc. reflexivity.
  - cbn [recordAll]. rewrite run_bind, run_addErrorToPullRequest.
    cbn [fst snd]. rewrite IH. simpl. rewrite <- app_assoc. reflexivity.
Qed.

(** C9.  [addSuccessToPullRequest] puts one entry at the end of the
    successes and keeps the errors; [addErrorToPullRequest] puts one entry at
    the end of the errors and keeps the successes; recording a batch one
    outcome after the other leaves, in each list, the entries in the order
    in which they were recorded. *)
Theorem recording_keeps_order (env : Oracle) (hist : list Event)
  (pr : PullRequestContent) :
  (forall text,
      Successes (addSuccessToPullRequest pr text) = app (Successes pr) [text]
      /\ Errors (addSuccessToPullRequest pr text) = Errors pr)
  /\ (forall id err action,
         exists pr',
           fst (run env (addErrorToPullRequest pr id err action) hist) = Returned pr'
           /\ Errors pr' = app (Errors pr) [errorSummary action id]
           /\ Successes pr' = Successes pr)
  /\ (forall outcomes,
         exists pr',
           fst (run env (recordAll outcomes pr) hist) = Returned pr'
           /\ Successes pr' = app (Successes pr) (successTexts outcomes)
           /\ Errors pr' = app (Errors pr) (errorSummaries outcomes)).
Proof.
  split; [| split].
  - intro text. split; reflexivity.
  - intros id err action. rewrite run_addErrorToPullRequest.
    eexists. repeat split.
  - intro outcomes. rewrite run_recordAll. eexists. repeat split.
Qed.

(** *** The generate command *)

(** Before it branches, [runGenerateCommand] makes the API root absolute; if
    that fails it returns the failure and calls nothing else. *)
Lemma runGenerateCommand_no_root (env : Oracle) (hist : list Event)
  (state : commandState) (outputDir : string) (path : string) (e : error) :
  env hist _ (filepath_Abs flagAPIRoot) = (path, Some e) ->
  run env (runGenerateCommand state outputDir) hist
  = (Returned ("", Some e), [Ev (filepath_Abs flagAPIRoot) (path, Some e)]).
Proof.
  intro Habs. unfold runGenerateCommand. cbn [run bind call fst snd].
  rewrite Habs. reflexivity.
Qed.

Lemma runGenerateCommand_refined (env : Oracle) (hist : list Event)
  (state : commandState) (outputDir : string) (repo : Repo) (apiRoot : string) :
  languageRepo state = Some repo ->
  findLibraryIDByApiPath (pipelineState state) flagAPIPath <> "" ->
  env hist _ (filepath_Abs flagAPIRoot) = (apiRoot, None) ->
  let libraryID := findLibraryIDByApiPath (pipelineState state) flagAPIPath in
  exists answer,
    run env (runGenerateCommand state outputDir) hist
    = (Returned (libraryID, answer),
       [Ev (filepath_Abs flagAPIRoot) (apiRoot, None);
        Ev (slog Info ("Performing refined generation for library " ++ libraryID) []) tt;
        Ev (container_GenerateLibrary (containerConfig state) apiRoot outputDir
              (filepath_Join [Dir repo; "generator-input"]) libraryID) answer]).
Proof.
  intros Hrepo Hid Habs libraryID. subst libraryID.
  unfold runGenerateCommand. cbn [run bind call fst snd].
  rewrite Habs, Hrepo.
  apply String.eqb_neq in Hid. rewrite Hid.
  cbn [run bind call fst snd].
  case_answer env unit. eexists. reflexivity.
Qed.

Lemma runGenerateCommand_raw (env : Oracle) (hist : list Event)
  (state : commandState) (outputDir : string) (apiRoot : string) :
  languageRepo state = None ->
  env hist _ (filepath_Abs flagAPIRoot) = (apiRoot, None) ->
  exists answer,
    run env (runGenerateCommand state outputDir) hist
    = (Returned ("", answer),
       [Ev (filepath_Abs flagAPIRoot) (apiRoot, None);
        Ev (slog Info
              ("No matching library found (or no repo specified); performing raw generation for "
                 ++ flagAPIPath) []) tt;
        Ev (container_GenerateRaw (containerConfig state) apiRoot outputDir flagAPIPath)
           answer]).
Proof.
  intros Hrepo Habs.
  unfold runGenerateCommand. cbn [run bind call fst snd].
  rewrite Habs, Hrepo.
  cbn [run bind call fst snd].
  case_answer env unit. eexists. reflexivity.
Qed.

(** C4.  Once the API root has been made absolute, [runGenerateCommand]
    takes one of two branches.  With a language repository (and its library
    resolved) it logs, calls [container.GenerateLibrary] with the directory
    "generator-input" of the repository and the library id, and returns that
    id with the answer of the call.  Without a language repository it logs,
    calls [container.GenerateRaw] with the API root and the API path only,
    and returns the empty id with the answer of the call. *)
Theorem runGenerateCommand_two_branches (env : Oracle) (hist : list Event)
  (state : commandState) (outputDir apiRoot : string) :
  env hist _ (filepath_Abs flagAPIRoot) = (apiRoot, None) ->
  match languageRepo state with
  | Some repo =>
      let libraryID := findLibraryIDByApiPath (pipelineState state) flagAPIPath in
      libraryID <> "" ->
      exists answer,
        run env (runGenerateCommand state outputDir) hist
        = (Returned (libraryID, answer),
           [Ev (filepath_Abs flagAPIRoot) (apiRoot, None);
            Ev (slog Info ("Performing refined generation for library " ++ libraryID) [])
               tt;
            Ev (container_GenerateLibrary (containerConfig state) apiRoot outputDir
                  (filepath_Join [Dir repo; "generator-input"]) libraryID) answer])
  | None =>
      exists answer,
        run env (runGenerateCommand state outputDir) hist
        = (Returned ("", answer),
           [Ev (filepath_Abs flagAPIRoot) (apiRoot, None);
            Ev (slog Info
                  ("No matching library found (or no repo specified); performing raw generation for "
                     ++ flagAPIPath) []) tt;
            Ev (container_GenerateRaw (containerConfig state) apiRoot outputDir
                  flagAPIPath) answer])
  end.
Proof.
  intro Habs. destruct (languageRepo state) as [repo |] eqn:Hrepo.
  - intros libraryID Hid.
    exact (runGenerateCommand_refined env hist state outputDir repo apiRoot Hrepo Hid Habs).
  - exact (runGenerateCommand_raw env hist state outputDir apiRoot Hrepo Habs).
Qed.

(** C5.  With a language repository but no library for the API path,
    [runGenerateCommand] calls no generation at all and returns the empty id
    with an error; once the API root has been made absolute, that error is
    the "bug in Librarian" one and nothing else has been called. *)
Theorem runGenerateCommand_library_not_found (env : Oracle) (hist : list Event)
  (state : commandState) (outputDir : string) (repo : Repo) :
  languageRepo state = Some repo ->
  findLibraryIDByApiPath (pipelineState state) flagAPIPath = "" ->
  let r := run env (runGenerateCommand state outputDir) hist in
  existsb isGenerateLibrary (snd r) = false
  /\ existsb isGenerateRaw (snd r) = false
  /\ (exists e, fst r = Returned ("", Some e))
  /\ (forall apiRoot,
         env hist _ (filepath_Abs flagAPIRoot) = (apiRoot, None) ->
         r = (Returned ("", Some (errors_New libraryNotFound)),
              [Ev (filepath_Abs flagAPIRoot) (apiRoot, None)])).
Proof.
  intros Hrepo Hid r. subst r.
  unfold runGenerateCommand. cbn [run bind call fst snd].
  destruct (env hist _ (filepath_Abs flagAPIRoot)) as [apiRoot [e |]].
  - cbn [run bind call fst snd]. repeat split; try reflexivity.
    + eexists. reflexivity.
    + intros apiRoot' H. discriminate H.
  - rewrite Hrepo, Hid. cbn [String.eqb run bind call fst snd].
    repeat split; try reflexivity.
    + eexists. reflexivity.
    + intros apiRoot' H. injection H as ->. reflexivity.
Qed.

Lemma runGenerateCommand_library (env : Oracle) (hist : list Event)
  (state : commandState) (outputDir libraryID : string) (err : option error)
  (tr : list Event) :
  run env (runGenerateCommand state outputDir) hist = (Returned (libraryID, err), tr) ->
  libraryID <> "" ->
  exists repo,
    languageRepo state = Some repo
    /\ libraryID = findLibraryIDByApiPath (pipelineState state) flagAPIPath.
Proof.
  intros Hrun Hid. apply (f_equal fst) in Hrun. revert Hrun.
  unfold runGenerateCommand. cbn [run bind call fst snd].
  destruct (env hist _ (filepath_Abs flagAPIRoot)) as [apiRoot [e |]];
    cbn [run bind call fst snd].
  - intro H. congruence.
  - destruct (languageRepo state) as [repo |].
    + destruct (findLibraryIDByApiPath (pipelineState state) flagAPIPath =? "");
        cbn [run bind call fst snd]; intro H.
      * congruence.
      * exists repo. split; [reflexivity | congruence].
    + cbn [run bind call fst snd]. intro H. congruence.
Qed.

(** The nil check of [runGenerateCommand] covers the later reads of
    [state.languageRepo.Dir]: [runGenerate] always returns. *)
Lemma runGenerateCommand_returns (env : Oracle) (hist : list Event)
  (state : commandState) (outputDir : string) :
  exists r, fst (run env (runGenerateCommand state outputDir) hist) = Returned r.
Proof.
  unfold runGenerateCommand. cbn [run bind call fst snd].
  destruct (env hist _ (filepath_Abs flagAPIRoot)) as [apiRoot [e |]];
    cbn [run bind call fst snd].
  - eexists. reflexivity.
  - destruct (languageRepo state) as [repo |].
    + destruct (findLibraryIDByApiPath (pipelineState state) flagAPIPath =? "");
        cbn [run bind call fst snd]; eexists; reflexivity.
    + cbn [run bind call fst snd]. eexists. reflexivity.
Qed.

(** With [findLibraryIDByApiPath] a total function, as it is typed here,
    [runGenerate] returns: when it reads the directory of the language
    repository for the build, the repository is there, because the
    generation gave a library id. *)
Lemma runGenerate_returns (env : Oracle) (hist : list Event) (state : commandState) :
  exists err, fst (run env (runGenerate state) hist) = Returned err.
Proof.
  unfold runGenerate.
  destruct (validateRequiredFlag "api-path" flagAPIPath); [eexists; reflexivity |].
  destruct (validateRequiredFlag "api-root" flagAPIRoot); [eexists; reflexivity |].
  cbn [run bind call fst snd].
  case_answer env (option error); cbn [run bind call fst snd];
    [eexists; reflexivity |].
  rewrite run_bind.
  match goal with
  | |- context [run env (runGenerateCommand ?s ?o) ?h] =>
      destruct (runGenerateCommand_returns env h s o) as [[libraryID err] Hret];
      destruct (run env (runGenerateCommand s o) h) as [out generation] eqn:Hgen
  end.
  cbn [fst] in Hret. subst out. cbn [fst snd].
  destruct err as [e |]; [eexists; reflexivity |].
  destruct flagBuild; [| eexists; reflexivity].
  destruct (libraryID =? "") eqn:Hid; cbn [negb run bind call fst snd].
  - case_answer env (option error); eexists; reflexivity.
  - apply String.eqb_neq in Hid.
    destruct (runGenerateCommand_library env _ state _ libraryID None generation Hgen Hid)
      as (repo & Hrepo & _).
    rewrite Hrepo. cbn [deref run bind call fst snd].
    case_answer env (option error); cbn [deref run bind call fst snd];
      [eexists; reflexivity |].
    case_answer env (option error); cbn [deref run bind call fst snd];
      [eexists; reflexivity |].
    case_answer env (option error); eexists; reflexivity.
Qed.

(** C6.  Let a build be requested and let [runGenerate] reach a generation
    that returns the id [libraryID] and no error.  If the id is not empty,
    the language repository is there and [runGenerate] logs, then calls in
    this order [container.Clean] for the library in the repository,
    [os.CopyFS] from the output directory into the repository, and
    [container.BuildLibrary] for the library; the first of them that fails
    ends the sequence and its error is what [runGenerate] returns.  If the id
    is empty, the only step is [container.BuildRaw] on the output directory
    and the API path, whose answer is returned. *)
Theorem runGenerate_build (env : Oracle) (hist : list Event) (state : commandState)
  (libraryID : string) (generation : list Event) :
  let outputDir := filepath_Join [workRoot state; "output"] in
  let before := [Ev (os_Mkdir outputDir 493) None;
                 Ev (slog Info ("Code will be generated in " ++ outputDir) []) tt] in
  flagBuild = true ->
  validateRequiredFlag "api-path" flagAPIPath = None ->
  validateRequiredFlag "api-root" flagAPIRoot = None ->
  env hist _ (os_Mkdir outputDir 493) = None ->
  run env (runGenerateCommand state outputDir) (hist ++ before)%list
  = (Returned (libraryID, None), generation) ->
  exists out steps,
    run env (runGenerate state) hist = (out, (before ++ generation ++ steps)%list)
    /\ (libraryID <> "" ->
        exists repo rest,
          languageRepo state = Some repo
          /\ steps = Ev (slog Info buildNotice []) tt :: rest
          /\ refinedBuild (containerConfig state) (Dir repo) outputDir libraryID out rest)
    /\ (libraryID = "" ->
        exists answer,
          steps = [Ev (container_BuildRaw (containerConfig state) outputDir flagAPIPath)
                      answer]
          /\ out = Returned answer).
Proof.
  intros outputDir before Hbuild Hpath Hroot Hmkdir Hgen.
  unfold runGenerate. rewrite Hpath, Hroot.
  fold outputDir. cbn [run bind call fst snd].
  rewrite Hmkdir. cbn [run bind call fst snd].
  case_answer env unit.
  rewrite run_bind. rewrite <- app_assoc.
  change ([Ev (os_Mkdir outputDir 493) None]
            ++ [Ev (slog Info ("Code will be generated in " ++ outputDir) []) tt])%list
    with before.
  rewrite Hgen. cbn [fst snd]. rewrite Hbuild.
  destruct (libraryID =? "") eqn:Hid; cbn [negb].
  - apply String.eqb_eq in Hid. subst libraryID.
    cbn [run bind call fst snd].
    match goal with
    | |- context [env ?h (option error) ?c] => set (answer := env h (option error) c)
    end.
    exists (Returned answer),
      [Ev (container_BuildRaw (containerConfig state) outputDir flagAPIPath) answer].
    split; [| split].
    + destruct answer; reflexivity.
    + intro H. congruence.
    + intros _. exists answer. split; reflexivity.
  - apply String.eqb_neq in Hid.
    destruct (runGenerateCommand_library env _ state outputDir libraryID None generation
                Hgen Hid) as (repo & Hrepo & _).
    rewrite Hrepo. cbn [deref run bind call fst snd].
    case_answer env unit.
    case_answer env (option error); cbn [deref run bind call fst snd].
    { eexists. eexists. split; [reflexivity |]. split; [| congruence].
      intros _. exists repo. eexists. split; [reflexivity |]. split; [reflexivity |].
      apply build_clean_failed. }
    case_answer env (option error); cbn [deref run bind call fst snd].
    { eexists. eexists. split; [reflexivity |]. split; [| congruence].
      intros _. exists repo. eexists. split; [reflexivity |]. split; [reflexivity |].
      apply build_copy_failed. }
    match goal with
    | |- context [env ?h (option error) ?c] => set (answer := env h (option error) c)
    end.
    exists (Returned answer),
      [Ev (slog Info buildNotice []) tt;
       Ev (container_Clean (containerConfig state) (Dir repo) libraryID) None;
       Ev (os_CopyFS (Dir repo) (os_DirFS outputDir)) None;
       Ev (container_BuildLibrary (containerConfig state) (Dir repo) libraryID) answer].
    split; [| split; [| congruence]].
    + destruct answer; reflexivity.
    + intros _. exists repo. eexists. split; [reflexivity |]. split; [reflexivity |].
      apply build_library_ran.
Qed.

(** C10.  With neither a repository URL nor a repository root,
    [openOrCloneLanguageRepoIfLibraryExists] logs a warning and returns no
    repository and no error, without any other call.  A generation whose
    state holds that absent repository is a raw generation: once the API
    root has been made absolute, [container.GenerateRaw] is the one
    generation call, and the id returned is empty. *)
Theorem openOrClone_without_repo (env : Oracle) (hist : list Event) (workRoot : string) :
  flagRepoUrl = "" ->
  flagRepoRoot = "" ->
  run env (openOrCloneLanguageRepoIfLibraryExists workRoot) hist
  = (Returned (None, None),
     [Ev (slog Warn "repo url and root are not specified, cannot check if library exists"
            []) tt])
  /\ forall (state : commandState) (outputDir : string) (env' : Oracle)
            (hist' : list Event) (apiRoot : string),
       Returned (languageRepo state, @None error)
       = fst (run env (openOrCloneLanguageRepoIfLibraryExists workRoot) hist) ->
       env' hist' _ (filepath_Abs flagAPIRoot) = (apiRoot, None) ->
       exists answer,
         run env' (runGenerateCommand state outputDir) hist'
         = (Returned ("", answer),
            [Ev (filepath_Abs flagAPIRoot) (apiRoot, None);
             Ev (slog Info
                   ("No matching library found (or no repo specified); performing raw generation for "
                      ++ flagAPIPath) []) tt;
             Ev (container_GenerateRaw (containerConfig state) apiRoot outputDir
                   flagAPIPath) answer]).
Proof.
  intros Hurl Hroot.
  assert (Hrun : run env (openOrCloneLanguageRepoIfLibraryExists workRoot) hist
                 = (Returned (None, None),
                    [Ev (slog Warn
                           "repo url and root are not specified, cannot check if library exists"
                           []) tt])).
  { unfold openOrCloneLanguageRepoIfLibraryExists. rewrite Hurl, Hroot.
    cbn [String.eqb andb run bind call fst snd].
    case_answer env unit. reflexivity. }
  split; [exact Hrun |].
  intros state outputDir env' hist' apiRoot Hrepo Habs.
  rewrite Hrun in Hrepo. cbn [fst] in Hrepo.
  apply runGenerateCommand_raw; [congruence | exact Habs].
Qed.

End Properties.

(** ** Further properties *)

Section Coverage.
Context {X : Externals} {F : Flags}.

Lemma guardedBy_sound (guard trigger : Event -> bool) (tr : list Event) :
  forall armed,
    guardedBy guard trigger armed tr = true ->
    forall pre e post,
      tr = (pre ++ e :: post)%list ->
      trigger e = true ->
      armed = true \/ exists p, In p pre /\ guard p = true.
Proof.
  induction tr as [| x tr IH]; intros armed Hm pre e post Heq Ht.
  - destruct pre; discriminate Heq.
  - simpl in Hm. apply andb_prop in Hm. destruct Hm as [Hx Hrest].
    destruct pre as [| y pre]; simpl in Heq.
    + assert (x = e) by congruence. subst x.
      rewrite Ht in Hx. simpl in Hx. left. exact Hx.
    + assert (x = y) by congruence. subst y.
      assert (Htr : tr = (pre ++ e :: post)%list) by congruence.
      destruct (IH _ Hrest pre e post Htr Ht) as [Ha | [p [Hin Hp]]].
      * apply orb_prop in Ha. destruct Ha as [Ha | Ha]; [left; exact Ha |].
        right. exists x. split; [left; reflexivity | exact Ha].
      * right. exists p. split; [right; exact Hin | exact Hp].
Qed.

(** Case analysis on every component of an answer. *)
Ltac split_answer r :=
  lazymatch type of r with
  | (_ * _)%type =>
      let a := fresh "a" in
      let b := fresh "b" in
      destruct r as [a b]; split_answer a; split_answer b
  | option error => destruct r
  | unit => destruct r
  | _ => idtac
  end.

(** The next answer of the environment, by cases. *)
Ltac next_answer env :=
  match goal with
  | |- context [env ?h ?R ?c] =>
      let r := fresh "r" in
      set (r := env h R c) in *; clearbody r; split_answer r
  end.

Ltac library_or_not :=
  match goal with
  | |- context [(findLibraryIDByApiPath ?s ?p =? "")%string] =>
      let H := fresh "Hlib" in
      destruct (findLibraryIDByApiPath s p =? "")%string eqn:H
  end.

Ltac known_library :=
  match goal with
  | H : (findLibraryIDByApiPath ?s ?p =? "")%string = _
    |- context [(findLibraryIDByApiPath ?s ?p =? "")%string] => rewrite H
  end.

Ltac compute_run := cbn [run bind call deref forEach fst snd negb andb orb String.eqb].

Ltac explore env :=
  compute_run;
  repeat (first [known_library | next_answer env | library_or_not]; compute_run).

(** *** openOrCloneLanguageRepoIfLibraryExists *)

(** Giving both a repository root and a repository URL is refused before
    anything is called. *)
Theorem openOrClone_both_given (env : Oracle) (hist : list Event) (workRoot : string) :
  flagRepoRoot <> "" ->
  flagRepoUrl <> "" ->
  run env (openOrCloneLanguageRepoIfLibraryExists workRoot) hist
  = (Returned (None, Some (errors_New "do not specify both repo-root and repo-url")), []).
Proof.
  intros Hroot Hurl. unfold openOrCloneLanguageRepoIfLibraryExists.
  apply String.eqb_neq in Hroot, Hurl. rewrite Hroot, Hurl. reflexivity.
Qed.

Ltac open_cases env :=
  unfold openOrCloneLanguageRepoIfLibraryExists;
  destruct (flagRepoUrl =? "") eqn:Hurl; destruct (flagRepoRoot =? "") eqn:Hroot;
  explore env.

(** Each event of an explicit trace in turn. *)
Ltac each_event Hin :=
  repeat (destruct Hin as [<- | Hin]); [.. | destruct Hin].

Lemma openOrClone_monitored (env : Oracle) (hist : list Event) (workRoot : string) :
  guardedBy foundLibrary isClone false
    (snd (run env (openOrCloneLanguageRepoIfLibraryExists workRoot) hist)) = true.
Proof.
  open_cases env; cbn; rewrite ?Hlib; reflexivity.
Qed.

(** In every execution, the repository is cloned or opened only after the
    pipeline state has been loaded without error and has shown a library for
    the API path; what [cloneOrOpenLanguageRepo] answers, repository and
    error, is what the function returns. *)
Theorem openOrClone_clone_after_found (env : Oracle) (hist : list Event)
  (workRoot : string) :
  let r := run env (openOrCloneLanguageRepoIfLibraryExists workRoot) hist in
  (forall pre e post,
      snd r = (pre ++ e :: post)%list ->
      isClone e = true ->
      exists p, In p pre /\ foundLibrary p = true)
  /\ (forall e answer,
         In e (snd r) -> cloneAnswer e = Some answer -> fst r = Returned answer).
Proof.
  intro r. subst r. split.
  - intros pre e post Heq Hc.
    destruct (guardedBy_sound foundLibrary isClone _ false
                (openOrClone_monitored env hist workRoot) pre e post Heq Hc) as [H | H];
      [discriminate H | exact H].
  - open_cases env; intros e' answer Hin Ha; each_event Hin; cbn in Ha;
      try discriminate Ha; injection Ha as <-; reflexivity.
Qed.

(** In every execution, if loading the pipeline state fails (reading the
    local file, parsing the URL or fetching from the remote), that error is
    returned with no repository, and nothing is cloned or opened. *)
Theorem openOrClone_load_failure (env : Oracle) (hist : list Event)
  (workRoot : string) :
  let r := run env (openOrCloneLanguageRepoIfLibraryExists workRoot) hist in
  forall e err,
    In e (snd r) ->
    loadFailure e = Some err ->
    fst r = Returned (None, Some err) /\ existsb isClone (snd r) = false.
Proof.
  intro r. subst r.
  open_cases env; intros e' err Hin Hf; each_event Hin; cbn in Hf;
    try discriminate Hf; injection Hf as <-; split; reflexivity.
Qed.

(** In every execution, if the pipeline state that was loaded has no library
    for the API path, the function returns no repository and no error, and
    nothing is cloned or opened. *)
Theorem openOrClone_not_configured (env : Oracle) (hist : list Event)
  (workRoot : string) :
  let r := run env (openOrCloneLanguageRepoIfLibraryExists workRoot) hist in
  forall e state,
    In e (snd r) ->
    loadedState e = Some state ->
    findLibraryIDByApiPath state flagAPIPath = "" ->
    fst r = Returned (None, None) /\ existsb isClone (snd r) = false.
Proof.
  intro r. subst r.
  open_cases env; intros e' state Hin Hs Hnone; each_event Hin; cbn in Hs;
    try discriminate Hs; injection Hs as <-;
    try (rewrite Hnone in Hlib; discriminate Hlib); split; reflexivity.
Qed.

(** With a repository root and no URL, the pipeline state is read from
    "generator-input/<pipelineStateFile>" under that root, as the first call,
    and the function neither parses a URL nor fetches from a remote. *)
Theorem openOrClone_local_source (env : Oracle) (hist : list Event)
  (workRoot : string) :
  flagRepoRoot <> "" ->
  flagRepoUrl = "" ->
  exists answer rest,
    snd (run env (openOrCloneLanguageRepoIfLibraryExists workRoot) hist)
    = Ev (loadPipelineStateFile
            (filepath_Join [flagRepoRoot; "generator-input"; pipelineStateFile]))
         answer :: rest
    /\ existsb isLocalLoad rest = false
    /\ existsb isParseUrl rest = false
    /\ existsb isRemoteFetch rest = false.
Proof.
  intros Hr Hu. apply String.eqb_neq in Hr. apply String.eqb_eq in Hu.
  unfold openOrCloneLanguageRepoIfLibraryExists. rewrite Hr, Hu.
  explore env; eexists; eexists; (split; [reflexivity |]); repeat split.
Qed.

(** With a repository URL and no root, the URL is parsed first.  If it does
    not parse, a warning is logged, the error is returned and nothing is
    fetched; otherwise the state is fetched at "HEAD" from the repository the
    URL parsed to.  No local file is read. *)
Theorem openOrClone_remote_source (env : Oracle) (hist : list Event)
  (workRoot : string) :
  flagRepoRoot = "" ->
  flagRepoUrl <> "" ->
  let r := run env (openOrCloneLanguageRepoIfLibraryExists workRoot) hist in
  exists gitHubRepo parsed rest,
    snd r = Ev (githubrepo_ParseUrl flagRepoUrl) (gitHubRepo, parsed) :: rest
    /\ existsb isLocalLoad rest = false
    /\ match parsed with
       | Some e =>
           fst r = Returned (None, Some e)
           /\ rest = [Ev (slog Warn "failed to parse"
                            ["repo url:"; flagRepoUrl; "error"; Error e]) tt]
       | None =>
           exists answer rest',
             rest = Ev (fetchRemotePipelineState context_Background gitHubRepo "HEAD")
                       answer :: rest'
             /\ existsb isRemoteFetch rest' = false
       end.
Proof.
  intros Hr Hu r. subst r. apply String.eqb_neq in Hu. apply String.eqb_eq in Hr.
  unfold openOrCloneLanguageRepoIfLibraryExists. rewrite Hr, Hu.
  explore env; eexists; eexists; eexists; (split; [reflexivity |]);
    (split; [reflexivity |]); cbv beta iota;
    try (split; reflexivity);
    eexists; eexists; split; reflexivity.
Qed.

(** *** runGenerate *)

(** Each position of an explicit trace in turn. *)
Ltac each_position Heq :=
  apply splitsAs_complete in Heq; cbn [splitsAs] in Heq;
  repeat match type of Heq with
         | _ \/ _ => destruct Heq as [Heq | Heq]
         | False => destruct Heq
         end;
  repeat match goal with
         | H : exists _, _ |- _ => destruct H as [? H]
         | H : _ /\ _ |- _ => destruct H
         | H : _ \/ _ |- _ => destruct H
         | H : False |- _ => destruct H
         end;
  subst.

Ltac generate_cases env state :=
  unfold runGenerate, runGenerateCommand;
  destruct (validateRequiredFlag "api-path" flagAPIPath) eqn:Hpath;
  [| destruct (validateRequiredFlag "api-root" flagAPIRoot) eqn:Hrootflag;
     [| destruct flagBuild eqn:Hbuild;
        destruct (languageRepo state) eqn:Hrepo;
        explore env ] ];
  compute_run.

(** An event of an explicit trace that has a given property. *)
Ltac some_event :=
  lazymatch goal with
  | |- exists g, In g ?tr /\ _ =>
      let rec try_from l :=
        lazymatch l with
        | ?x :: ?rest =>
            first [ exists x; split; [simpl; auto 20 | reflexivity] | try_from rest ]
        end in
      try_from tr
  end.

(** A missing API path or API root ends [runGenerate] before anything is
    called; the API path is looked at first. *)
Theorem runGenerate_missing_flag (env : Oracle) (hist : list Event)
  (state : commandState) (e : error) :
  validateRequiredFlag "api-path" flagAPIPath = Some e
  \/ (validateRequiredFlag "api-path" flagAPIPath = None
      /\ validateRequiredFlag "api-root" flagAPIRoot = Some e) ->
  run env (runGenerate state) hist = (Returned (Some e), []).
Proof.
  unfold runGenerate. intros [Hp | [Hp Hr]].
  - rewrite Hp. reflexivity.
  - rewrite Hp, Hr. reflexivity.
Qed.

(** In every execution, whatever is generated, copied or built raw works on
    the directory "output" under the work root, and only after [os.Mkdir] has
    created that directory in this run (so never on a directory that was
    there before). *)
Theorem runGenerate_output_directory (env : Oracle) (hist : list Event)
  (state : commandState) :
  forall pre e post dir,
    snd (run env (runGenerate state) hist) = (pre ++ e :: post)%list ->
    outputOf e = Some dir ->
    dir = filepath_Join [workRoot state; "output"]
    /\ In (Ev (os_Mkdir dir 493) None) pre.
Proof.
  generate_cases env state; intros pre e' post dir Heq Ho; each_position Heq;
    cbn in Ho; try discriminate Ho; injection Ho as <-;
    (split; [reflexivity | simpl; auto]).
Qed.

Lemma runGenerate_monitored (env : Oracle) (hist : list Event) (state : commandState) :
  guardedBy generationSucceeded isBuildStep false
    (snd (run env (runGenerate state) hist)) = true.
Proof.
  generate_cases env state; reflexivity.
Qed.

(** In every execution, a clean, a copy or a build comes only after a
    generation that answered without error, and only when a build was
    requested. *)
Theorem runGenerate_build_after_generation (env : Oracle) (hist : list Event)
  (state : commandState) :
  let tr := snd (run env (runGenerate state) hist) in
  (forall pre e post,
      tr = (pre ++ e :: post)%list ->
      isBuildStep e = true ->
      exists p, In p pre /\ generationSucceeded p = true)
  /\ (existsb isBuildStep tr = true -> flagBuild = true).
Proof.
  intro tr. subst tr. split.
  - intros pre e post Heq Hb.
    destruct (guardedBy_sound generationSucceeded isBuildStep _ false
                (runGenerate_monitored env hist state) pre e post Heq Hb) as [H | H];
      [discriminate H | exact H].
  - generate_cases env state; cbn; intro H; first [reflexivity | discriminate H].
Qed.

(** Without a build request nothing is cleaned, copied or built, and
    [runGenerate] returns what the generation call answered. *)
Theorem runGenerate_without_build (env : Oracle) (hist : list Event)
  (state : commandState) :
  flagBuild = false ->
  let r := run env (runGenerate state) hist in
  existsb isBuildStep (snd r) = false
  /\ forall e answer,
       In e (snd r) -> generationAnswer e = Some answer -> fst r = Returned answer.
Proof.
  intros Hno r. subst r.
  generate_cases env state; try congruence; (split; [reflexivity |]);
    intros e' answer Hin Ha; each_event Hin; cbn in Ha; try discriminate Ha;
    injection Ha as <-; reflexivity.
Qed.

(** In every execution, the error of a failed generation is what
    [runGenerate] returns, and no clean, copy or build follows. *)
Theorem runGenerate_generation_failure (env : Oracle) (hist : list Event)
  (state : commandState) :
  let r := run env (runGenerate state) hist in
  forall e err,
    In e (snd r) ->
    generationAnswer e = Some (Some err) ->
    fst r = Returned (Some err) /\ existsb isBuildStep (snd r) = false.
Proof.
  intro r. subst r.
  generate_cases env state; intros e' err Hin Ha; each_event Hin; cbn in Ha;
    try discriminate Ha; injection Ha as <-; split; reflexivity.
Qed.

(** In every execution, [container.Clean] and [container.BuildLibrary] are
    given a library id that is not empty and that [container.GenerateLibrary]
    was given earlier in this run; [container.BuildRaw] is called only after
    a call of [container.GenerateRaw], in a run without a generation for a
    library. *)
Theorem runGenerate_build_matches_generation (env : Oracle) (hist : list Event)
  (state : commandState) :
  let tr := snd (run env (runGenerate state) hist) in
  (forall pre e post libraryID,
      tr = (pre ++ e :: post)%list ->
      builtLibrary e = Some libraryID ->
      libraryID <> ""
      /\ exists g, In g pre /\ generatedLibrary g = Some libraryID)
  /\ (forall pre e post,
         tr = (pre ++ e :: post)%list ->
         isBuildRaw e = true ->
         (exists g, In g pre /\ isGenerateRaw g = true)
         /\ existsb isGenerateLibrary tr = false).
Proof.
  intro tr. subst tr. split.
  - generate_cases env state; intros pre e' post libraryID Heq Hb; each_position Heq;
      cbn in Hb; try discriminate Hb; injection Hb as <-;
      (split; [apply String.eqb_neq; exact Hlib | some_event]).
  - generate_cases env state; intros pre e' post Heq Hb; each_position Heq;
      cbn in Hb; try discriminate Hb; (split; [some_event | reflexivity]).
Qed.


(** *** runGenerateCommand *)

(** [runGenerateCommand] returns a library id that is not empty exactly when
    it has called [container.GenerateLibrary]; it makes at most one
    generation call, and the error it returns with an id is the answer of
    that call. *)
Theorem runGenerateCommand_id_iff_refined (env : Oracle) (hist : list Event)
  (state : commandState) (outputDir : string) :
  let r := run env (runGenerateCommand state outputDir) hist in
  exists libraryID err,
    fst r = Returned (libraryID, err)
    /\ (libraryID <> "" <-> existsb isGenerateLibrary (snd r) = true)
    /\ (List.length (filter isGeneration (snd r)) <= 1)%nat
    /\ (forall e answer,
           In e (snd r) -> generationAnswer e = Some answer -> err = answer)
    /\ (forall e, In e (snd r) -> generatedLibrary e = Some libraryID
                  \/ generatedLibrary e = None).
Proof.
  intro r. subst r. unfold runGenerateCommand.
  destruct (languageRepo state) eqn:Hrepo; explore env;
    eexists; eexists; (split; [reflexivity |]); cbn;
    (split; [split; [intro H; first [reflexivity | congruence]
                    | intro H; first [discriminate H
                                     | apply String.eqb_neq; exact Hlib]] |]);
    (split; [auto |]);
    (split; [intros e' answer Hin Ha; each_event Hin; cbn in Ha;
             try discriminate Ha; injection Ha as <-; reflexivity |]);
    intros e' Hin; each_event Hin; cbn; auto.
Qed.

(** *** createPullRequest *)

Lemma logs_are_silent (tr : list Event) :
  forallb isLog tr = true ->
  forall e,
    In e tr ->
    lookupFailure e = None /\ isCreatePullRequest e = false /\ creationAnswer e = None.
Proof.
  induction tr as [| x tr IH]; simpl; intros H e Hin; [destruct Hin |].
  apply andb_prop in H. destruct H as [Hx Htr].
  destruct Hin as [<- | Hin]; [| exact (IH Htr e Hin)].
  destruct x as [R c r]. destruct c; try discriminate Hx. repeat split.
Qed.

Lemma logs_filtered (f : Event -> bool) (tr : list Event) :
  (forall e, isLog e = true -> f e = false) ->
  forallb isLog tr = true -> filter f tr = [].
Proof.
  intro Hf. induction tr as [| x tr IH]; simpl; intro H; [reflexivity |].
  apply andb_prop in H. destruct H as [Hx Htr].
  rewrite (Hf x Hx). exact (IH Htr).
Qed.

Lemma createPullRequest_unpublished (env : Oracle) (hist : list Event)
  (ctx : CommandContext) (content : PullRequestContent)
  (titlePrefix descriptionSuffix branchType : string) :
  Successes content = [] ->
  exists err,
    fst (run env
           (createPullRequest ctx content titlePrefix descriptionSuffix branchType) hist)
    = Returned (None, err).
Proof.
  intro Hs. destruct (Errors content) as [| e es] eqn:He.
  - rewrite createPullRequest_empty by assumption. eexists. reflexivity.
  - rewrite createPullRequest_only_errors by (rewrite ?He; auto; discriminate).
    eexists. reflexivity.
Qed.

(** The executions of [createPullRequest] by cases: nothing to publish, or
    one of the four ways of publishing. *)
Ltac publish_cases env hist ctx content titlePrefix descriptionSuffix branchType :=
  let Hs := fresh "Hs" in
  destruct (Successes content) as [| ? ?] eqn:Hs;
  [ pose proof (createPullRequest_nothing_published env hist ctx content titlePrefix
                  descriptionSuffix branchType Hs) as Hlogs;
    destruct (createPullRequest_unpublished env hist ctx content titlePrefix
                descriptionSuffix branchType Hs) as [none Hnone]
  | let Hne := fresh "Hne" in
    assert (Hne : Successes content <> []) by (rewrite Hs; discriminate);
    pose proof (createPullRequest_publishes env hist ctx content titlePrefix
                  descriptionSuffix branchType Hne) as Hpub;
    destruct (run env
                (createPullRequest ctx content titlePrefix descriptionSuffix branchType)
                hist) as [out tr];
    cbn [fst snd] in *;
    destruct Hpub as [Hpush | gh e Hpush | gh token e Hpush | gh token created Hpush] ].

(** In every execution, if the GitHub repository of the remote cannot be
    resolved, that error is returned with no metadata; no access token is
    asked for, nothing is pushed and no pull request is created. *)
Theorem createPullRequest_no_remote (env : Oracle) (hist : list Event)
  (ctx : CommandContext) (content : PullRequestContent)
  (titlePrefix descriptionSuffix branchType : string) :
  let r := run env
             (createPullRequest ctx content titlePrefix descriptionSuffix branchType)
             hist in
  forall e err,
    In e (snd r) ->
    lookupFailure e = Some err ->
    fst r = Returned (None, Some err)
    /\ existsb isAccessToken (snd r) = false
    /\ existsb isPushBranch (snd r) = false
    /\ existsb isCreatePullRequest (snd r) = false.
Proof.
  intro r. subst r.
  publish_cases env hist ctx content titlePrefix descriptionSuffix branchType;
    intros e' err Hin Hf.
  - destruct (logs_are_silent _ Hlogs e' Hin) as (H & _). congruence.
  - each_event Hin; cbn in Hf; discriminate Hf.
  - each_event Hin; cbn in Hf; try discriminate Hf.
    injection Hf as <-. repeat split.
  - each_event Hin; cbn in Hf; discriminate Hf.
  - each_event Hin; cbn in Hf; discriminate Hf.
Qed.

(** In every execution, a pull request is created on the branch
    "librarian-<branchType>-<timestamp of the start>", the branch that was
    pushed without error in this run, under the title
    "<titlePrefix>: <timestamp>"; what GitHub answers, metadata and error, is
    what the function returns. *)
Theorem createPullRequest_on_pushed_branch (env : Oracle) (hist : list Event)
  (ctx : CommandContext) (content : PullRequestContent)
  (titlePrefix descriptionSuffix branchType : string) :
  let r := run env
             (createPullRequest ctx content titlePrefix descriptionSuffix branchType)
             hist in
  forall e,
    In e (snd r) ->
    isCreatePullRequest e = true ->
    createdBranch e = Some (prBranch ctx branchType)
    /\ createdTitle e = Some (prTitle ctx titlePrefix)
    /\ (exists p, In p (snd r) /\ pushedBranch p = Some (prBranch ctx branchType))
    /\ (exists answer, creationAnswer e = Some answer /\ fst r = Returned answer).
Proof.
  intro r. subst r.
  publish_cases env hist ctx content titlePrefix descriptionSuffix branchType;
    intros e' Hin Hc.
  - destruct (logs_are_silent _ Hlogs e' Hin) as (_ & H & _). congruence.
  - each_event Hin; discriminate Hc.
  - each_event Hin; discriminate Hc.
  - each_event Hin; discriminate Hc.
  - each_event Hin; try discriminate Hc.
    split; [reflexivity |]. split; [reflexivity |]. split.
    + some_event.
    + eexists. split; reflexivity.
Qed.

(** In every execution, metadata of a pull request in the result is the
    metadata that a pull-request creation of this run answered with. *)
Theorem createPullRequest_metadata_origin (env : Oracle) (hist : list Event)
  (ctx : CommandContext) (content : PullRequestContent)
  (titlePrefix descriptionSuffix branchType : string) :
  let r := run env
             (createPullRequest ctx content titlePrefix descriptionSuffix branchType)
             hist in
  forall metadata err,
    fst r = Returned (Some metadata, err) ->
    exists e, In e (snd r) /\ creationAnswer e = Some (Some metadata, err).
Proof.
  intro r. subst r.
  publish_cases env hist ctx content titlePrefix descriptionSuffix branchType;
    intros metadata err Hr; try congruence.
  injection Hr as ->. some_event.
Qed.

(** One call of [createPullRequest] resolves the remote at most once, pushes
    at most once and creates at most one pull request. *)
Theorem createPullRequest_at_most_once (env : Oracle) (hist : list Event)
  (ctx : CommandContext) (content : PullRequestContent)
  (titlePrefix descriptionSuffix branchType : string) :
  let tr := snd (run env
                   (createPullRequest ctx content titlePrefix descriptionSuffix
                      branchType) hist) in
  (List.length (filter isRemoteLookup tr) <= 1)%nat
  /\ (List.length (filter isPushBranch tr) <= 1)%nat
  /\ (List.length (filter isCreatePullRequest tr) <= 1)%nat.
Proof.
  intro tr. subst tr.
  publish_cases env hist ctx content titlePrefix descriptionSuffix branchType.
  - rewrite !logs_filtered; try exact Hlogs;
      try (intros [R c r] H; destruct c; try discriminate H; reflexivity).
    cbn. lia.
  - cbn. lia.
  - cbn. lia.
  - cbn. lia.
  - cbn. lia.
Qed.

(** The dry run reports the title and the description that the same call
    with the push flag on gives to GitHub. *)
Theorem createPullRequest_dry_run_agrees (F' : Flags) (env env' : Oracle)
  (hist hist' : list Event) (ctx : CommandContext) (content : PullRequestContent)
  (titlePrefix descriptionSuffix branchType : string) :
  @flagPush F = false ->
  @flagPush F' = true ->
  Successes content <> [] ->
  exists title description,
    snd (run env
           (createPullRequest (F := F) ctx content titlePrefix descriptionSuffix
              branchType) hist)
    = [Ev (slog Info (dryRunReport title description) []) tt]
    /\ forall e,
         In e (snd (run env'
                      (createPullRequest (F := F') ctx content titlePrefix
                         descriptionSuffix branchType) hist')) ->
         isCreatePullRequest e = true ->
         createdTitle e = Some title /\ createdDescription e = Some description.
Proof.
  intros Hoff Hon Hs.
  exists (prTitle ctx titlePrefix),
    (withSuffix (renderContent content) descriptionSuffix).
  pose proof (createPullRequest_publishes (F := F) env hist ctx content titlePrefix
                descriptionSuffix branchType Hs) as Hdry.
  pose proof (createPullRequest_publishes (F := F') env' hist' ctx content titlePrefix
                descriptionSuffix branchType Hs) as Hreal.
  destruct (run env (createPullRequest (F := F) ctx content titlePrefix
                       descriptionSuffix branchType) hist) as [out tr].
  destruct (run env' (createPullRequest (F := F') ctx content titlePrefix
                        descriptionSuffix branchType) hist') as [out' tr'].
  cbn [fst snd] in *. split.
  - destruct Hdry; congruence.
  - destruct Hreal; try congruence; intros e' Hin Hc; each_event Hin;
      try discriminate Hc; split; reflexivity.
Qed.

(** *** formatListAsMarkdown *)

Lemma formatListAsMarkdown_concat (l1 l2 : list string) :
  formatListAsMarkdown (l1 ++ l2)%list
  = formatListAsMarkdown l1 ++ formatListAsMarkdown l2.
Proof.
  induction l1 as [| value rest IH]; [reflexivity |].
  cbn [app]. rewrite !formatListAsMarkdown_cons, IH.
  rewrite !append_assoc. reflexivity.
Qed.

(** Formatting a list that is made of two parts gives the two formatted
    parts one after the other; the empty list gives the empty text. *)
Theorem formatListAsMarkdown_app (l1 l2 : list string) :
  formatListAsMarkdown (l1 ++ l2)%list
  = formatListAsMarkdown l1 ++ formatListAsMarkdown l2
  /\ formatListAsMarkdown [] = "".
Proof.
  split; [apply formatListAsMarkdown_concat | reflexivity].
Qed.

Lemma line_feed_is_not_single (c : ascii) :
  negb (Ascii.eqb c (ascii_of_nat 10)) = true -> c <> ascii_of_nat 10.
Proof.
  intros H ->. rewrite Ascii.eqb_refl in H. discriminate H.
Qed.

Lemma first_line (a : string) :
  forall b x y,
    singleLine a = true ->
    singleLine b = true ->
    a ++ LF ++ x = b ++ LF ++ y ->
    a = b /\ x = y.
Proof.
  induction a as [| c a IH]; intros b x y Ha Hb Heq; destruct b as [| d b];
    cbn [append LF] in Heq; cbn [singleLine] in Ha, Hb.
  - injection Heq as ->. split; reflexivity.
  - apply andb_prop in Hb. destruct Hb as [Hd _].
    apply line_feed_is_not_single in Hd. injection Heq as Hc _. congruence.
  - apply andb_prop in Ha. destruct Ha as [Hc _].
    apply line_feed_is_not_single in Hc. injection Heq as Hd _. congruence.
  - apply andb_prop in Ha. destruct Ha as [_ Ha].
    apply andb_prop in Hb. destruct Hb as [_ Hb].
    injection Heq as -> Heq.
    destruct (IH b x y Ha Hb Heq) as [-> ->]. split; reflexivity.
Qed.

(** On values without line break the formatted text tells the list: two
    lists of such values that format to the same text are the same list. *)
Theorem formatListAsMarkdown_injective (l1 : list string) :
  forall l2,
    forallb singleLine l1 = true ->
    forallb singleLine l2 = true ->
    formatListAsMarkdown l1 = formatListAsMarkdown l2 ->
    l1 = l2.
Proof.
  induction l1 as [| v l1 IH]; intros [| w l2] H1 H2 Heq.
  - reflexivity.
  - rewrite formatListAsMarkdown_cons in Heq. discriminate Heq.
  - rewrite formatListAsMarkdown_cons in Heq. discriminate Heq.
  - rewrite !formatListAsMarkdown_cons in Heq.
    cbn [forallb] in H1, H2.
    apply andb_prop in H1. destruct H1 as [Hv H1].
    apply andb_prop in H2. destruct H2 as [Hw H2].
    cbn [append] in Heq. injection Heq as Heq.
    destruct (first_line v w _ _ Hv Hw Heq) as [-> Hrest].
    rewrite (IH l2 H1 H2 Hrest). reflexivity.
Qed.

(** Values are written as they are: a value that holds a line break followed
    by "- " formats to the same text as two values. *)
Theorem formatListAsMarkdown_no_escape (l1 l2 : list string) (a b : string) :
  formatListAsMarkdown (app l1 (app [a ++ LF ++ "- " ++ b] l2))
  = formatListAsMarkdown (app l1 (app [a; b] l2)).
Proof.
  rewrite !formatListAsMarkdown_concat. f_equal.
  cbn [app]. rewrite !formatListAsMarkdown_cons.
  rewrite !append_assoc. reflexivity.
Qed.

(** *** Recording a batch *)

(** Recording a batch logs one warning for each failure, in the order of the
    batch, with the action, the id and the detail of the error; a success
    logs nothing. *)
Theorem recordAll_logs (env : Oracle) (outcomes : list Recording) :
  forall hist pr,
    snd (run env (recordAll outcomes pr) hist)
    = flat_map
        (fun o =>
           match o with
           | Succeeded _ => []
           | Failed id err action =>
               [Ev (slog Warn
                      ("Error while " ++ action ++ " " ++ id ++ ": " ++ fmt_s err) [])
                   tt]
           end) outcomes.
Proof.
  induction outcomes as [| [text | id err action] rest IH]; intros hist pr.
  - reflexivity.
  - cbn [recordAll flat_map app]. apply IH.
  - cbn [recordAll flat_map]. rewrite run_bind, run_addErrorToPullRequest.
    cbn [fst snd]. rewrite IH. reflexivity.
Qed.

Lemma allFailed_no_success (outcomes : list Recording) :
  allFailed outcomes = true -> successTexts outcomes = [].
Proof.
  induction outcomes as [| [text | id err action] rest IH]; simpl; intro H.
  - reflexivity.
  - discriminate H.
  - exact (IH H).
Qed.

Lemma not_allFailed_success (outcomes : list Recording) :
  allFailed outcomes = false -> successTexts outcomes <> [].
Proof.
  induction outcomes as [| [text | id err action] rest IH]; simpl; intro H.
  - discriminate H.
  - discriminate.
  - exact (IH H).
Qed.

Lemma allFailed_errors (outcomes : list Recording) :
  outcomes <> [] -> allFailed outcomes = true -> errorSummaries outcomes <> [].
Proof.
  destruct outcomes as [| [text | id err action] rest]; simpl; intros Hne H.
  - congruence.
  - discriminate H.
  - discriminate.
Qed.

(** The policy of a batch.  Let the outcomes of a batch be recorded into an
    empty content and let [createPullRequest] be called with the result.
    An empty batch gives no pull request and no error, with one line logged.
    A batch of failures only gives the error "errors encountered but no PR
    to create", and the calls are those of the logger and no other: the
    header and one line "Error while <action> <id>" for each failure, in the
    order of the batch.  A batch with a success is published: its
    description renders the texts of the successes and the lines of the
    failures, in the order of the batch. *)
Theorem batch_policy (env0 env : Oracle) (hist0 hist : list Event)
  (outcomes : list Recording) (content : PullRequestContent) (ctx : CommandContext)
  (titlePrefix descriptionSuffix branchType : string) :
  fst (run env0 (recordAll outcomes {| Successes := []; Errors := [] |}) hist0)
  = Returned content ->
  let r := run env
             (createPullRequest ctx content titlePrefix descriptionSuffix branchType)
             hist in
  content = {| Successes := successTexts outcomes; Errors := errorSummaries outcomes |}
  /\ (outcomes = [] ->
      r = (Returned (None, None),
           [Ev (slog Info "No PR to create, and no errors." []) tt])
      /\ forallb isLog (snd r) = true)
  /\ (outcomes <> [] ->
      allFailed outcomes = true ->
      r = (Returned (None, Some (errors_New "errors encountered but no PR to create")),
           Ev (slog ErrorLevel
                 "No PR to create, but errors were logged (and restated below). Aborting."
                 []) tt
           :: map (fun line => Ev (slog ErrorLevel line []) tt)
                (errorSummaries outcomes))
      /\ forallb isLog (snd r) = true)
  /\ (allFailed outcomes = false ->
      publishBehaviour ctx (prTitle ctx titlePrefix)
        (withSuffix (renderContent content) descriptionSuffix)
        (prBranch ctx branchType) (fst r) (snd r)).
Proof.
  intros Hrec r. subst r.
  rewrite run_recordAll in Hrec. cbn [Successes Errors app] in Hrec.
  injection Hrec as <-.
  split; [reflexivity |]. split; [| split].
  - intros ->. rewrite createPullRequest_empty by reflexivity.
    split; reflexivity.
  - intros Hne Hall.
    rewrite createPullRequest_only_errors.
    + split; [reflexivity |]. cbn [snd]. simpl. apply logs_only.
    + cbn [Successes]. apply allFailed_no_success. exact Hall.
    + cbn [Errors]. apply allFailed_errors; assumption.
  - intro Hsome. apply createPullRequest_publishes.
    cbn [Successes]. apply not_allFailed_success. exact Hsome.
Qed.

End Coverage.

(** ** The statements on the sample installation *)

Module Examples.
Import Sample.

#[local] Existing Instance externals.

(** C1 as the specification words it fails: [createPullRequest] is given one
    success and no error, every collaborator succeeds, and the description
    of the pull request it creates is the list of the successes with nothing
    in front of it, so under no heading. *)
Lemma createPullRequest_successes_without_heading :
  exists description,
    publishedDescriptions
      (snd (run cooperative
              (createPullRequest (F := flags false true) context successesOnly
                 "feat" "" "generate") []))
    = [description]
    /\ ~ underHeading description (Successes successesOnly).
Proof.
  exists ("- a" ++ LF). split; [reflexivity |].
  intros (heading & rest & Hne & Heq).
  apply (f_equal String.length) in Heq.
  rewrite !length_append in Heq. simpl in Heq.
  destruct heading as [| c heading]; [congruence | simpl in Heq; lia].
Qed.

(** A dry run over one success and one error. *)
Lemma createPullRequest_dry_run_witness :
  @flagPush (flags false false) = false
  /\ Successes mixed <> []
  /\ run cooperative
       (createPullRequest (F := flags false false) context mixed "feat" "see the logs"
          "generate") []
     = (Returned (None, None),
        [Ev (slog Info
               ("Push not specified; would have created PR with the following title and description:"
                  ++ LF ++ "feat: 20250101T000000" ++ LF ++ LF
                  ++ "Errors:" ++ LF ++ "==================" ++ LF
                  ++ "- Error while generating google-cloud-run" ++ LF ++ LF ++ LF
                  ++ "Changes Included:" ++ LF ++ "==================" ++ LF
                  ++ "- Regenerated google-cloud-functions" ++ LF ++ LF
                  ++ "see the logs") []) tt]).
Proof.
  split; [reflexivity |]. split; [discriminate |].
  apply (createPullRequest_dry_run (F := flags false false) cooperative [] context mixed
           "feat" "see the logs" "generate").
  - reflexivity.
  - discriminate.
Defined.

(** A rejected push: the error comes back and nothing is created. *)
Lemma createPullRequest_push_before_create_witness :
  run rejectingPush
    (createPullRequest (F := flags false true) context mixed "feat" "" "generate") []
  = (Returned (None, Some "remote rejected"),
     [Ev (gitrepo_GetGitHubRepoFromRemote (Some {| Dir := "/repo" |}))
         ("googleapis/google-cloud-sample", None);
      Ev githubrepo_GetAccessToken "token";
      Ev (gitrepo_PushBranch (Some {| Dir := "/repo" |})
            "librarian-generate-20250101T000000" "token") (Some "remote rejected");
      Ev (slog Info "Received error pushing branch: 'remote rejected'" []) tt])
  /\ forall e err,
       In e (snd (run rejectingPush
                    (createPullRequest (F := flags false true) context mixed "feat" ""
                       "generate") [])) ->
       pushOutcome e = Some (Some err) ->
       Returned (@None PullRequestMetadata, Some "remote rejected")
       = Returned (None, Some err)
       /\ existsb isCreatePullRequest
            (snd (run rejectingPush
                    (createPullRequest (F := flags false true) context mixed "feat" ""
                       "generate") [])) = false.
Proof.
  split; [reflexivity |].
  exact (proj1 (proj2
    (createPullRequest_push_before_create (F := flags false true) rejectingPush []
       context mixed "feat" "" "generate" _ _ eq_refl))).
Defined.

(** Both branches of the generation, on a tracked and on an absent repository. *)
Lemma runGenerateCommand_two_branches_witness :
  cooperative [] (filepath_Abs (@flagAPIRoot (flags false false))) = ("/apis", None)
  /\ (exists answer,
        run cooperative (runGenerateCommand (F := flags false false) refined "/work/output")
          []
        = (Returned ("google-cloud-functions", answer),
           [Ev (filepath_Abs "/apis") ("/apis", None);
            Ev (slog Info
                  "Performing refined generation for library google-cloud-functions" [])
               tt;
            Ev (container_GenerateLibrary image "/apis" "/work/output"
                  "/repo/generator-input" "google-cloud-functions") answer]))
  /\ (exists answer,
        run cooperative (runGenerateCommand (F := flags false false) raw "/work/output") []
        = (Returned ("", answer),
           [Ev (filepath_Abs "/apis") ("/apis", None);
            Ev (slog Info
                  "No matching library found (or no repo specified); performing raw generation for google/cloud/functions/v2"
                  []) tt;
            Ev (container_GenerateRaw image "/apis" "/work/output"
                  "google/cloud/functions/v2") answer])).
Proof.
  split; [reflexivity |]. split.
  - apply (runGenerateCommand_two_branches (F := flags false false) cooperative []
             refined "/work/output" "/apis" eq_refl).
    discriminate.
  - exact (runGenerateCommand_two_branches (F := flags false false) cooperative []
             raw "/work/output" "/apis" eq_refl).
Defined.

(** A repository whose state does not list the API path. *)
Lemma runGenerateCommand_library_not_found_witness :
  languageRepo stale = Some {| Dir := "/repo" |}
  /\ findLibraryIDByApiPath (pipelineState stale) (@flagAPIPath (flags false false)) = ""
  /\ existsb isGenerateLibrary
       (snd (run cooperative
               (runGenerateCommand (F := flags false false) stale "/work/output") []))
     = false.
Proof.
  split; [reflexivity |]. split; [reflexivity |].
  exact (proj1
    (runGenerateCommand_library_not_found (F := flags false false) cooperative [] stale
       "/work/output" {| Dir := "/repo" |} eq_refl eq_refl)).
Defined.

(** Generation and build of a tracked library. *)
Lemma runGenerate_build_witness :
  @flagBuild (flags true false) = true
  /\ validateRequiredFlag "api-path" (@flagAPIPath (flags true false)) = None
  /\ validateRequiredFlag "api-root" (@flagAPIRoot (flags true false)) = None
  /\ cooperative [] (os_Mkdir "/work/output" 493) = None
  /\ (exists out steps,
        run cooperative (runGenerate (F := flags true false) refined) []
        = (out,
           [Ev (os_Mkdir "/work/output" 493) None;
            Ev (slog Info "Code will be generated in /work/output" []) tt;
            Ev (filepath_Abs "/apis") ("/apis", None);
            Ev (slog Info
                  "Performing refined generation for library google-cloud-functions" [])
               tt;
            Ev (container_GenerateLibrary image "/apis" "/work/output"
                  "/repo/generator-input" "google-cloud-functions") None]
           ++ steps)%list
        /\ exists rest,
             steps = Ev (slog Info buildNotice []) tt :: rest
             /\ refinedBuild image "/repo" "/work/output" "google-cloud-functions" out rest).
Proof.
  split; [reflexivity |]. split; [reflexivity |]. split; [reflexivity |].
  split; [reflexivity |].
  destruct (runGenerate_build (F := flags true false) cooperative [] refined
              "google-cloud-functions"
              [Ev (filepath_Abs "/apis") ("/apis", None);
               Ev (slog Info
                     "Performing refined generation for library google-cloud-functions" [])
                  tt;
               Ev (container_GenerateLibrary image "/apis" "/work/output"
                     "/repo/generator-input" "google-cloud-functions") None]
              eq_refl eq_refl eq_refl eq_refl eq_refl)
    as (out & steps & Hrun & Hrefined & _).
  exists out, steps. split; [exact Hrun |].
  destruct Hrefined as (repo & rest & Hrepo & Hsteps & Hbuild); [discriminate |].
  exists rest. split; [exact Hsteps |].
  injection Hrepo as <-. exact Hbuild.
Defined.

(** The description published for one success, one error and a suffix. *)
Lemma createPullRequest_description_witness :
  Successes mixed <> []
  /\ exists description,
       description
       = "Errors:" ++ LF ++ "==================" ++ LF
           ++ "- Error while generating google-cloud-run" ++ LF ++ LF ++ LF
           ++ "Changes Included:" ++ LF ++ "==================" ++ LF
           ++ "- Regenerated google-cloud-functions" ++ LF ++ LF ++ "see the logs"
       /\ publishedDescriptions
            (snd (run cooperative
                    (createPullRequest (F := flags false true) context mixed "feat"
                       "see the logs" "generate") []))
          = [description].
Proof.
  split; [discriminate |].
  destruct (createPullRequest_description (F := flags false true) cooperative [] context
              mixed "feat" "see the logs" "generate")
    as (description & Hsuffix & _ & _ & _ & Hone & _); [discriminate |].
  exists description. split.
  - rewrite Hsuffix by discriminate. reflexivity.
  - apply Hone. reflexivity.
Defined.

(** No repository given on the command line. *)
Lemma openOrClone_without_repo_witness :
  @flagRepoUrl (flags false false) = ""
  /\ @flagRepoRoot (flags false false) = ""
  /\ run cooperative
       (openOrCloneLanguageRepoIfLibraryExists (F := flags false false) "/work") []
     = (Returned (None, None),
        [Ev (slog Warn "repo url and root are not specified, cannot check if library exists"
               []) tt]).
Proof.
  split; [reflexivity |]. split; [reflexivity |].
  exact (proj1 (openOrClone_without_repo (F := flags false false) cooperative [] "/work"
                  eq_refl eq_refl)).
Defined.

End Examples.

(** ** The further properties on the sample installation *)

Module MoreExamples.
Import Sample.

#[local] Existing Instance externals.

(** Both a root and a URL on the command line. *)
Lemma openOrClone_both_given_witness :
  @flagRepoRoot contradictory <> ""
  /\ @flagRepoUrl contradictory <> ""
  /\ run cooperative (openOrCloneLanguageRepoIfLibraryExists (F := contradictory) "/work")
       []
     = (Returned (None, Some "do not specify both repo-root and repo-url"), []).
Proof.
  split; [discriminate |]. split; [discriminate |].
  apply (openOrClone_both_given (F := contradictory) cooperative [] "/work");
    discriminate.
Defined.

(** A checkout without its state file. *)
Lemma openOrClone_load_failure_witness :
  In (Ev (X := externals) (loadPipelineStateFile "/repo/generator-input/pipeline-state.json")
        (None, Some "open: no such file or directory"))
     (snd (run unreadableState
             (openOrCloneLanguageRepoIfLibraryExists (F := onCheckout) "/work") []))
  /\ fst (run unreadableState
            (openOrCloneLanguageRepoIfLibraryExists (F := onCheckout) "/work") [])
     = Returned (None, Some "open: no such file or directory")
  /\ existsb isClone
       (snd (run unreadableState
               (openOrCloneLanguageRepoIfLibraryExists (F := onCheckout) "/work") []))
     = false.
Proof.
  split; [left; reflexivity |].
  apply (openOrClone_load_failure (F := onCheckout) unreadableState [] "/work"
           (Ev (X := externals) (loadPipelineStateFile "/repo/generator-input/pipeline-state.json")
               (None, Some "open: no such file or directory"))).
  - left. reflexivity.
  - reflexivity.
Defined.

(** A checkout whose state lists no library. *)
Lemma openOrClone_not_configured_witness :
  findLibraryIDByApiPath (Some untracked) (@flagAPIPath onCheckout) = ""
  /\ fst (run emptyState
            (openOrCloneLanguageRepoIfLibraryExists (F := onCheckout) "/work") [])
     = Returned (None, None)
  /\ existsb isClone
       (snd (run emptyState
               (openOrCloneLanguageRepoIfLibraryExists (F := onCheckout) "/work") []))
     = false.
Proof.
  split; [reflexivity |].
  apply (openOrClone_not_configured (F := onCheckout) emptyState [] "/work"
           (Ev (X := externals) (loadPipelineStateFile "/repo/generator-input/pipeline-state.json")
               (Some untracked, None))
           (Some untracked)).
  - left. reflexivity.
  - reflexivity.
  - reflexivity.
Defined.

(** A run on a checkout. *)
Lemma openOrClone_local_source_witness :
  @flagRepoRoot onCheckout <> ""
  /\ @flagRepoUrl onCheckout = ""
  /\ exists answer rest,
       snd (run cooperative
              (openOrCloneLanguageRepoIfLibraryExists (F := onCheckout) "/work") [])
       = Ev (loadPipelineStateFile "/repo/generator-input/pipeline-state.json") answer
         :: rest.
Proof.
  split; [discriminate |]. split; [reflexivity |].
  destruct (openOrClone_local_source (F := onCheckout) cooperative [] "/work")
    as (answer & rest & Htr & _); [discriminate | reflexivity |].
  exists answer, rest. exact Htr.
Defined.

(** A run on a remote repository. *)
Lemma openOrClone_remote_source_witness :
  @flagRepoRoot onRemote = ""
  /\ @flagRepoUrl onRemote <> ""
  /\ exists gitHubRepo parsed rest,
       snd (run cooperative
              (openOrCloneLanguageRepoIfLibraryExists (F := onRemote) "/work") [])
       = Ev (githubrepo_ParseUrl "https://github.com/googleapis/google-cloud-sample")
            (gitHubRepo, parsed) :: rest
       /\ existsb isLocalLoad rest = false.
Proof.
  split; [reflexivity |]. split; [discriminate |].
  destruct (openOrClone_remote_source (F := onRemote) cooperative [] "/work")
    as (gitHubRepo & parsed & rest & Htr & Hlocal & _); [reflexivity | discriminate |].
  exists gitHubRepo, parsed, rest. split; [exact Htr | exact Hlocal].
Defined.

(** A command line without API path. *)
Lemma runGenerate_missing_flag_witness :
  (validateRequiredFlag "api-path" (@flagAPIPath unnamed)
   = Some "required flag -api-path not specified"
   \/ (validateRequiredFlag "api-path" (@flagAPIPath unnamed) = None
       /\ validateRequiredFlag "api-root" (@flagAPIRoot unnamed)
          = Some "required flag -api-path not specified"))
  /\ run cooperative (runGenerate (F := unnamed) raw) []
     = (Returned (Some "required flag -api-path not specified"), []).
Proof.
  split; [left; reflexivity |].
  apply (runGenerate_missing_flag (F := unnamed) cooperative [] raw).
  left. reflexivity.
Defined.

(** The generation of a tracked library writes into the new directory. *)
Lemma runGenerate_output_directory_witness :
  outputOf (Ev (X := externals) (container_GenerateLibrary image "/apis" "/work/output"
                  "/repo/generator-input" "google-cloud-functions") None)
  = Some "/work/output"
  /\ "/work/output" = filepath_Join [workRoot refined; "output"]
  /\ In (Ev (X := externals) (os_Mkdir "/work/output" 493) None)
        [Ev (X := externals) (os_Mkdir "/work/output" 493) None;
         Ev (X := externals) (slog Info "Code will be generated in /work/output" []) tt;
         Ev (X := externals) (filepath_Abs "/apis") ("/apis", None);
         Ev (X := externals) (slog Info
               "Performing refined generation for library google-cloud-functions" [])
            tt].
Proof.
  split; [reflexivity |].
  apply (runGenerate_output_directory (F := flags false false) cooperative [] refined
           [Ev (X := externals) (os_Mkdir "/work/output" 493) None;
            Ev (X := externals) (slog Info "Code will be generated in /work/output" []) tt;
            Ev (X := externals) (filepath_Abs "/apis") ("/apis", None);
            Ev (X := externals) (slog Info
                  "Performing refined generation for library google-cloud-functions" [])
               tt]
           (Ev (X := externals) (container_GenerateLibrary image "/apis" "/work/output"
                  "/repo/generator-input" "google-cloud-functions") None)
           []).
  - reflexivity.
  - reflexivity.
Defined.

(** A generation without build. *)
Lemma runGenerate_without_build_witness :
  @flagBuild (flags false false) = false
  /\ existsb isBuildStep
       (snd (run cooperative (runGenerate (F := flags false false) refined) []))
     = false.
Proof.
  split; [reflexivity |].
  exact (proj1 (runGenerate_without_build (F := flags false false) cooperative []
                  refined eq_refl)).
Defined.

(** A generator that fails. *)
Lemma runGenerate_generation_failure_witness :
  In (Ev (X := externals) (container_GenerateLibrary image "/apis" "/work/output"
            "/repo/generator-input" "google-cloud-functions") (Some "exit status 1"))
     (snd (run brokenGenerator (runGenerate (F := flags true false) refined) []))
  /\ fst (run brokenGenerator (runGenerate (F := flags true false) refined) [])
     = Returned (Some "exit status 1")
  /\ existsb isBuildStep
       (snd (run brokenGenerator (runGenerate (F := flags true false) refined) []))
     = false.
Proof.
  split; [simpl; auto 10 |].
  apply (runGenerate_generation_failure (F := flags true false) brokenGenerator []
           refined
           (Ev (X := externals) (container_GenerateLibrary image "/apis" "/work/output"
                  "/repo/generator-input" "google-cloud-functions")
               (Some "exit status 1"))).
  - simpl. auto 10.
  - reflexivity.
Defined.

(** No working directory to resolve the API root in. *)
Lemma runGenerateCommand_no_root_witness :
  noWorkingDirectory [] (filepath_Abs (@flagAPIRoot (flags false false)))
  = ("", Some "getwd: no such file or directory")
  /\ run noWorkingDirectory
       (runGenerateCommand (F := flags false false) refined "/work/output") []
     = (Returned ("", Some "getwd: no such file or directory"),
        [Ev (X := externals) (filepath_Abs "/apis") ("", Some "getwd: no such file or directory")]).
Proof.
  split; [reflexivity |].
  exact (runGenerateCommand_no_root (F := flags false false) noWorkingDirectory []
           refined "/work/output" "" "getwd: no such file or directory" eq_refl).
Defined.

(** A repository whose remote is not on GitHub. *)
Lemma createPullRequest_no_remote_witness :
  In (Ev (X := externals) (gitrepo_GetGitHubRepoFromRemote (Some {| Dir := "/repo" |}))
        ("", Some "not a GitHub remote"))
     (snd (run foreignRemote
             (createPullRequest (F := flags false true) context mixed "feat" ""
                "generate") []))
  /\ fst (run foreignRemote
            (createPullRequest (F := flags false true) context mixed "feat" ""
               "generate") [])
     = Returned (None, Some "not a GitHub remote").
Proof.
  split; [left; reflexivity |].
  exact (proj1
    (createPullRequest_no_remote (F := flags false true) foreignRemote [] context mixed
       "feat" "" "generate"
       (Ev (X := externals) (gitrepo_GetGitHubRepoFromRemote (Some {| Dir := "/repo" |}))
           ("", Some "not a GitHub remote"))
       "not a GitHub remote" (or_introl eq_refl) eq_refl)).
Defined.

(** The pull request of a batch that was pushed. *)
Lemma createPullRequest_on_pushed_branch_witness :
  isCreatePullRequest
    (Ev (X := externals) (githubrepo_CreatePullRequest tt "googleapis/google-cloud-sample"
           "librarian-generate-20250101T000000" "feat: 20250101T000000"
           ("- a" ++ LF)) (Some 7, None))
  = true
  /\ createdBranch
       (Ev (X := externals) (githubrepo_CreatePullRequest tt "googleapis/google-cloud-sample"
              "librarian-generate-20250101T000000" "feat: 20250101T000000"
              ("- a" ++ LF)) (Some 7, None))
     = Some (prBranch context "generate").
Proof.
  split; [reflexivity |].
  apply (createPullRequest_on_pushed_branch (F := flags false true) cooperative []
           context successesOnly "feat" "" "generate").
  - simpl. auto 10.
  - reflexivity.
Defined.

(** The metadata of the pull request that GitHub created. *)
Lemma createPullRequest_metadata_origin_witness :
  fst (run cooperative
         (createPullRequest (F := flags false true) context mixed "feat" "" "generate")
         [])
  = Returned (Some 7, None)
  /\ exists e,
       In e (snd (run cooperative
                    (createPullRequest (F := flags false true) context mixed "feat" ""
                       "generate") []))
       /\ creationAnswer e = Some (Some 7, None).
Proof.
  split; [reflexivity |].
  exact (createPullRequest_metadata_origin (F := flags false true) cooperative []
           context mixed "feat" "" "generate" 7 None eq_refl).
Defined.

(** The same call, dry and for real. *)
Lemma createPullRequest_dry_run_agrees_witness :
  @flagPush (flags false false) = false
  /\ @flagPush (flags false true) = true
  /\ Successes mixed <> []
  /\ exists title description,
       snd (run cooperative
              (createPullRequest (F := flags false false) context mixed "feat" ""
                 "generate") [])
       = [Ev (X := externals) (slog Info (dryRunReport title description) []) tt].
Proof.
  split; [reflexivity |]. split; [reflexivity |]. split; [discriminate |].
  destruct (createPullRequest_dry_run_agrees (F := flags false false)
              (flags false true) cooperative cooperative [] [] context mixed "feat" ""
              "generate") as (title & description & Hdry & _);
    [reflexivity | reflexivity | discriminate |].
  exists title, description. exact Hdry.
Defined.

(** Two values, each on one line. *)
Lemma formatListAsMarkdown_injective_witness :
  forallb singleLine ["a"; "b"] = true
  /\ formatListAsMarkdown ["a"; "b"] = formatListAsMarkdown ("a" :: ["b"])
  /\ ["a"; "b"] = "a" :: ["b"].
Proof.
  split; [reflexivity |]. split; [reflexivity |].
  apply formatListAsMarkdown_injective; reflexivity.
Defined.


(** A batch of one success and one failure. *)
Lemma batch_policy_witness :
  fst (run cooperative (recordAll batch {| Successes := []; Errors := [] |}) [])
  = Returned mixed
  /\ mixed = {| Successes := successTexts batch; Errors := errorSummaries batch |}.
Proof.
  split; [reflexivity |].
  exact (proj1 (batch_policy (F := flags false true) cooperative cooperative [] [] batch
                  mixed context "feat" "" "generate" eq_refl)).
Defined.

End MoreExamples.
